(** * devanalysis: VAR-based causal analysis of pull-request merge activity

    A shallow embedding of [devanalysis.py].  The script is a thin driver
    over pandas, statsmodels, matplotlib and Elasticsearch; those libraries
    are represented by records of functions (their results are whatever the
    library computes), while the control flow, the exception handling, the
    file and console output and the dictionaries of the script itself are
    modelled step by step.

    Conventions.
    - A Python call that may fail returns an [outcome]: [Returned v] or
      [Raised e].  Statistical routines, plotting, file opening and the data
      provider are fallible; attribute reads, [str], [summary()], [print]
      and [logging] are not.
    - Exceptions are the ones deriving from [Exception] (what library calls
      raise); each carries its class chain so that [except ValueError] can
      test membership.  Interrupts and interpreter exit are not modelled.
    - Effects (report files, saved figures, console, log) live in a
      [World] threaded through the state-and-exception monad [M]. *)

From Stdlib Require Import ZArith List Lia Floats Bool.
From stdpp Require Import base tactics option list gmap strings pretty sorting.
From Equations Require Import Equations.
Import ListNotations.
Set Warnings "-clear-no-such-hyp".
Local Open Scope string_scope.
Local Open Scope Z_scope.

(** ** Exceptions *)

Record PyExc := mkExc {
  exc_mro : list string;   (* class chain below [Exception], most specific first *)
  exc_msg : string
}.

Definition isinstance (e : PyExc) (cls : string) : bool :=
  bool_decide (cls ∈ (exc_mro e ++ ["Exception"])%list).

Definition KeyError (key : string) : PyExc :=
  mkExc ["KeyError"; "LookupError"] key.
Definition IndexError (msg : string) : PyExc :=
  mkExc ["IndexError"; "LookupError"] msg.
Definition ValueError (msg : string) : PyExc :=
  mkExc ["ValueError"] msg.
Definition AttributeError (msg : string) : PyExc :=
  mkExc ["AttributeError"] msg.

Inductive outcome (A : Type) : Type :=
| Returned (a : A)
| Raised (e : PyExc).
Arguments Returned {A} a.
Arguments Raised {A} e.

(** ** The world the script writes to *)

Inductive Printed : Type :=
| PStationary (data_column user_login : string) (adf_statistic p_value : float)
| PNotStationary (data_column user_login : string) (adf_statistic p_value : float)
| PSummary (text : string)
| PTrainTest (user_login : string) (train test : nat)
| PPermutation (permutation_index : nat) (permutation : list string)
| PNoDataPoints (user_login index : string)
| PDataPoints (user_login : string) (data_points : nat) (calendar_interval : string)
| PDifferencing
| PDocuments (index : string) (documents : Z).

Inductive LogRecord : Type :=
| LogInfo (msg : string)
| LogWarning (msg : string)
| LogError (msg : string).

Record World := mkWorld {
  files : gmap string string;   (* path -> content, reports and figures alike *)
  images : list string;         (* paths of the figures saved so far, oldest first *)
  stdout : list Printed;        (* oldest first *)
  logging : list LogRecord      (* oldest first *)
}.

Definition empty_world : World := mkWorld ∅ [] [] [].

(** ** State and exception monad *)

Definition M (A : Type) : Type := World -> outcome A * World.

Definition ret {A} (a : A) : M A := fun w => (Returned a, w).
Definition raise {A} (e : PyExc) : M A := fun w => (Raised e, w).
Definition bind {A B} (m : M A) (k : A -> M B) : M B :=
  fun w => match m w with
           | (Returned a, w1) => k a w1
           | (Raised e, w1) => (Raised e, w1)
           end.
Definition lift {A} (o : outcome A) : M A := fun w => (o, w).

#[global] Instance M_ret : MRet M := @ret.
#[global] Instance M_bind : MBind M := fun A B k m => bind m k.

(** [try: body except cls: handler] *)
Definition try_except {A} (body : M A) (cls : string) (handler : PyExc -> M A) : M A :=
  fun w => match body w with
           | (Returned a, w1) => (Returned a, w1)
           | (Raised e, w1) =>
               if isinstance e cls then handler e w1 else (Raised e, w1)
           end.

Definition print (p : Printed) : M unit :=
  fun w => (Returned tt, mkWorld (files w) (images w) (stdout w ++ [p]) (logging w)).
Definition log (r : LogRecord) : M unit :=
  fun w => (Returned tt, mkWorld (files w) (images w) (stdout w) (logging w ++ [r])).

(** [for x in xs: s = body x s] *)
Fixpoint for_each {X S} (body : X -> S -> M S) (xs : list X) (s : S) : M S :=
  match xs with
  | [] => ret s
  | x :: rest => s1 ← body x s; for_each body rest s1
  end.

(** ** Python dictionaries: insertion-ordered, assignment keeps the slot *)

Module dict.
Definition t (V : Type) : Type := list (string * V).

Fixpoint get {V} (k : string) (d : t V) : option V :=
  match d with
  | [] => None
  | (k1, v) :: rest => if String.eqb k1 k then Some v else get k rest
  end.

Fixpoint set {V} (k : string) (v : V) (d : t V) : t V :=
  match d with
  | [] => [(k, v)]
  | (k1, v1) :: rest =>
      if String.eqb k1 k then (k1, v) :: rest else (k1, v1) :: set k v rest
  end.

Definition contains {V} (k : string) (d : t V) : bool :=
  match get k d with Some _ => true | None => false end.

Definition items {V} (d : t V) : list (string * V) := d.
End dict.

(** ** Files opened in append mode

    [open(path, "a")] creates the file when it is missing and places the
    stream position at the end of the file.  [truncate()] without a size
    cuts the file at the current position.  Every write in append mode
    lands at the end of the file. *)

Record FileHandle := mkHandle { fh_path : string; fh_pos : nat }.

Definition content (w : World) (path : string) : string :=
  default "" (files w !! path).

Definition set_content (path text : string) (w : World) : World :=
  mkWorld (<[path := text]> (files w)) (images w) (stdout w) (logging w).

Definition substring_prefix (n : nat) (s : string) : string :=
  String.substring 0 n s.

Section Files.
(** Whether the operating system refuses to open a path. *)
Variable open_error : string -> option PyExc.

Definition open_append (path : string) : M FileHandle :=
  fun w => match open_error path with
           | Some e => (Raised e, w)
           | None =>
               let text := content w path in
               (Returned (mkHandle path (String.length text)),
                set_content path text w)
           end.

Definition truncate (h : FileHandle) : M unit :=
  fun w => (Returned tt,
            set_content (fh_path h)
              (substring_prefix (fh_pos h) (content w (fh_path h))) w).

Definition write (h : FileHandle) (text : string) : M FileHandle :=
  fun w => let new := content w (fh_path h) ++ text in
           (Returned (mkHandle (fh_path h) (String.length new)),
            set_content (fh_path h) new w).
End Files.

(** ** Data frames

    A frame is a row index of time buckets and a list of labelled columns;
    a cell is [None] where pandas has NaN.  Labels may repeat: selecting by
    label returns every column carrying that label, as pandas does. *)

Definition Series : Type := list (option Z).

Record DataFrame := mkFrame {
  index : list Z;
  columns : list (string * Series)
}.

Module pd.
(** [pd.DataFrame()] *)
Definition DataFrame_new : DataFrame := mkFrame [] [].

Definition len (df : DataFrame) : nat := length (index df).

Definition matching (label : string) (cols : list (string * Series))
  : list (string * Series) :=
  List.filter (fun c => String.eqb (fst c) label) cols.

(** [df[label]]: the column(s) with that label, [KeyError] when none. *)
Definition getitem (df : DataFrame) (label : string) : outcome (list Series) :=
  match matching label (columns df) with
  | [] => Raised (KeyError label)
  | cs => Returned (map snd cs)
  end.

(** [df[[l1, ..., ln]]]: columns in the order of the labels, [KeyError]
    when a label is missing.  The exception carries the first missing
    label; the wording of the message of pandas is not reproduced. *)
Definition getitem_list (df : DataFrame) (labels : list string) : outcome DataFrame :=
  match List.find (fun l => bool_decide (matching l (columns df) = [])) labels with
  | Some l => Raised (KeyError l)
  | None =>
      Returned (mkFrame (index df)
                  (flat_map (fun l => matching l (columns df)) labels))
  end.

(** [df[:-n]] and [df[-n:]] for [n > 0] *)
Definition drop_last (n : nat) (df : DataFrame) : DataFrame :=
  let k := (len df - n)%nat in
  mkFrame (firstn k (index df)) (map (fun c => (fst c, firstn k (snd c))) (columns df)).
Definition keep_last (n : nat) (df : DataFrame) : DataFrame :=
  let k := (len df - n)%nat in
  mkFrame (skipn k (index df)) (map (fun c => (fst c, skipn k (snd c))) (columns df)).

Fixpoint cell_at (idx : list Z) (cells : Series) (i : Z) : option Z :=
  match idx, cells with
  | j :: idx1, c :: cells1 => if Z.eqb j i then c else cell_at idx1 cells1 i
  | _, _ => None
  end.

Definition reindex (new_index : list Z) (df : DataFrame) : list (string * Series) :=
  map (fun c => (fst c, map (cell_at (index df) (snd c)) new_index)) (columns df).

(** [pd.concat(frames, axis=1)]: without frames, the [ValueError] of
    pandas; with frames, what pandas makes of them, which is given by
    [join]: the outer join on the row index, in the order pandas decides,
    or the exception pandas raises (for an index with repeated buckets,
    say). *)
Definition concat (join : list DataFrame -> outcome DataFrame)
    (frames : list DataFrame) : outcome DataFrame :=
  match frames with
  | [] => Raised (ValueError "No objects to concatenate")
  | _ => join frames
  end.

Definition fillna (v : Z) (df : DataFrame) : DataFrame :=
  mkFrame (index df)
    (map (fun c => (fst c, map (fun x => Some (default v x)) (snd c))) (columns df)).

(** [rename_axis] names the column axis and leaves labels and cells as
    they are; the axis name is not part of the model. *)
Definition rename_axis (name : string) (df : DataFrame) : DataFrame := df.

Definition diff_cells (s : Series) : Series :=
  match s with
  | [] => []
  | _ :: rest =>
      None :: zip_with (fun prev cur =>
                          match prev, cur with
                          | Some a, Some b => Some (b - a)
                          | _, _ => None
                          end) s rest
  end.

Definition diff (df : DataFrame) : DataFrame :=
  mkFrame (index df) (map (fun c => (fst c, diff_cells (snd c))) (columns df)).

Fixpoint select_mask {A} (mask : list bool) (l : list A) : list A :=
  match mask, l with
  | b :: mask1, x :: l1 => if b then x :: select_mask mask1 l1 else select_mask mask1 l1
  | _, _ => []
  end.

Definition row_complete (df : DataFrame) (i : nat) : bool :=
  forallb (fun c => match snd c !! i with Some (Some _) => true | _ => false end)
          (columns df).

Definition dropna (df : DataFrame) : DataFrame :=
  let mask := map (row_complete df) (seq 0 (len df)) in
  mkFrame (select_mask mask (index df))
          (map (fun c => (fst c, select_mask mask (snd c))) (columns df)).

(** [Series.sum()], skipping NaN *)
Definition sum (s : Series) : Z :=
  fold_right (fun x acc => default 0 x + acc) 0 s.
End pd.

(** ** itertools *)

Module itertools.
(** Every way of taking one element out of a list, by position. *)
Fixpoint selects {A} (l : list A) : list (A * list A) :=
  match l with
  | [] => []
  | x :: rest => (x, rest) :: map (fun p => (fst p, x :: snd p)) (selects rest)
  end.

Fixpoint permutations_of_length {A} (n : nat) (l : list A) : list (list A) :=
  match n with
  | O => [[]]
  | S m => flat_map (fun p => map (cons (fst p)) (permutations_of_length m (snd p)))
                    (selects l)
  end.

(** [itertools.permutations(l)]: full-length permutations, by position,
    in lexicographic order of positions. *)
Definition permutations {A} (l : list A) : list (list A) :=
  permutations_of_length (length l) l.
End itertools.

Definition enumerate {A} (l : list A) : list (nat * A) :=
  imap (fun i x => (i, x)) l.

(** ** statsmodels objects, as far as the script reads them *)

Record HypothesisTestResults := mkTest {
  conclusion : string;
  test_summary : string
}.
Definition CausalityTestResults := HypothesisTestResults.
Definition WhitenessTestResults := HypothesisTestResults.
Definition NormalityTestResults := HypothesisTestResults.

Record LagOrderResults := mkLagOrder {
  selected_orders : dict.t Z;
  order_summary : string
}.

Record IRAnalysis := mkIR {
  irf_plot : outcome unit;
  irf_plot_cum_effects : outcome unit
}.

Record FEVD := mkFEVD { fevd_plot : outcome unit }.

Record VARResults := mkVARResults {
  k_ar : Z;
  fit_summary : string;
  test_whiteness : Z -> outcome WhitenessTestResults;       (* nlags *)
  test_normality : outcome NormalityTestResults;
  test_causality : string -> string -> string -> float      (* causing caused kind signif *)
                   -> outcome CausalityTestResults;
  irf : Z -> outcome IRAnalysis;                            (* periods *)
  fevd : Z -> outcome FEVD                                  (* periods *)
}.

Record VARModel := mkVAR {
  select_order : outcome LagOrderResults;
  fit : Z -> outcome VARResults                             (* maxlags *)
}.

Record DecomposeResult := mkDecompose { decompose_plot : outcome unit }.

Record Elasticsearch := mkES {
  indices_refresh : string -> outcome unit;
  cat_count : string -> outcome (list (dict.t string))
}.

(** ** Values stored in the result dictionaries *)

Inductive PyVal : Type :=
| VInt (z : Z)
| VBool (b : bool).

#[global] Instance PyVal_eq_dec : EqDecision PyVal.
Proof. solve_decision. Defined.

#[global] Instance PyVal_countable : Countable PyVal.
Proof.
  refine (inj_countable' (fun v => match v with VInt z => inl z | VBool b => inr b end)
                         (fun s => match s with inl z => VInt z | inr b => VBool b end) _).
  intros []; reflexivity.
Defined.

(** A value of [result_analysis]: the sample-size list or a set.  Every
    set the script builds holds integers only or booleans only. *)
Inductive Value : Type :=
| VList (l : list Z)
| VSet (s : gset PyVal).

(** A cell of the per-user summary record. *)
Inductive PyObj : Type :=
| OStr (s : string)
| OInt (z : Z)
| OBool (b : bool)
| OTotals (sums : list Z).   (* [df[column].sum()], one total per matching column *)

(** The libraries and the [aggregation] module the script imports. *)
Record Env := mkEnv {
  adfuller : list Series -> outcome (float * float);   (* statistic, p-value *)
  VAR : DataFrame -> outcome VARModel;
  seasonal_decompose : list Series -> outcome DecomposeResult;
  DataFrame_plot : DataFrame -> string -> outcome unit;
  savefig_error : string -> option PyExc;
  open_error : string -> option PyExc;
  format_exc : PyExc -> string;
  int_of_str : string -> outcome Z;
  MERGES_PERFORMED_COLUMN : string;
  MERGES_REQUESTED_COLUMN : string;
  MERGES_SUCCESSFUL_COLUMN : string;
  get_merges_performed : Elasticsearch -> string -> string -> string -> outcome DataFrame;
  get_merge_requests : Elasticsearch -> string -> string -> string -> outcome DataFrame;
  get_requests_merged : Elasticsearch -> string -> string -> string -> outcome DataFrame;
  get_all_mergers : Elasticsearch -> string -> outcome (list string);
  (* what [plt.savefig] puts in the file, given the path and the figures
     saved before *)
  savefig_bytes : string -> list string -> string;
  (* the order in which the interpreter goes through a set *)
  set_iteration : gset PyVal -> list PyVal;
  (* [pd.concat(frames, axis=1)] on one frame or more *)
  concat_frames : list DataFrame -> outcome DataFrame
}.

Definition str_val (v : PyVal) : string :=
  match v with
  | VInt z => pretty z
  | VBool true => "True"
  | VBool false => "False"
  end.

Fixpoint join (sep : string) (parts : list string) : string :=
  match parts with
  | [] => ""
  | [p] => p
  | p :: rest => p ++ sep ++ join sep rest
  end.

(** [[str(value) for value in values]]; a set is gone through in the
    order of the interpreter. *)
Definition str_values (env : Env) (v : Value) : list string :=
  match v with
  | VList l => map pretty l
  | VSet s => map str_val (set_iteration env s)
  end.

(** [d[key].add(v)] *)
Definition set_add (key : string) (v : PyVal) (d : dict.t Value) : outcome (dict.t Value) :=
  match dict.get key d with
  | None => Raised (KeyError key)
  | Some (VSet s) => Returned (dict.set key (VSet (s ∪ {[ v ]})) d)
  | Some (VList _) => Raised (AttributeError "'list' object has no attribute 'add'")
  end.

(** The float nearest to 0.05, the default of every threshold argument. *)
Definition default_threshold : float := 0x1.999999999999ap-5%float.

(** The line feed, Python's ["\n"]. *)
Definition newline : string := String (Ascii.ascii_of_nat 10) EmptyString.

Definition IMAGE_DIRECTORY : string := "img/".
Definition TEXT_DIRECTORY : string := "txt/".

Definition report_path (user_login : string) (permutation_index : nat) : string :=
  TEXT_DIRECTORY ++ "user_" ++ user_login ++ "_permutation_"
    ++ pretty permutation_index ++ "_analysis_results.txt".

(** [round(sqrt(n))] for an integer [0 <= n < 2^50], where the rounded
    square root of the float is the nearest integer to the real square
    root (which is never half-way between two integers).  For larger [n]
    the float square root may round differently, and for integers beyond
    the floats [math.sqrt] raises; the sample sizes of the script are row
    counts, far below. *)
Definition round_sqrt (n : Z) : Z := (Z.sqrt (4 * n) + 1) / 2.

(** What one iteration of the permutation loop produced (kept alongside
    the loop state for the statements below; the script does not store it). *)
Record PermutationResult := mkPermutationResult {
  pr_index : nat;
  pr_permutation : list string;
  pr_report : string;
  pr_var_order : Z;
  pr_serial_correlation : bool;
  pr_residual_white_noise : bool;
  pr_causality : dict.t bool
}.

Record LoopState := mkLoop {
  train_dataset : DataFrame;
  result_analysis : dict.t Value;
  permutation_results : list PermutationResult
}.

Definition var_order_key : string := "var_order".
Definition serial_correlation_key : string := "serial_correlation".
Definition residual_white_noise_key : string := "residual_white_noise".
Definition train_sample_size_key : string := "train_sample_size".

(** ** The script *)

Section Script.
Variable env : Env.

(** [plt.savefig(path)] replaces the file at [path] with the figure. *)
Definition savefig (path : string) : M unit :=
  fun w => match savefig_error env path with
           | Some e => (Raised e, w)
           | None => (Returned tt,
                      mkWorld (<[path := savefig_bytes env path (images w)]> (files w))
                              (images w ++ [path]) (stdout w) (logging w))
           end.

(** [plt.rcParams] and [plt.style.use] configure the figure only. *)
Definition plot_dataframe (consolidated_dataframe : DataFrame) (plot_title : string)
  : M unit :=
  lift (DataFrame_plot env consolidated_dataframe plot_title);;
  savefig (IMAGE_DIRECTORY ++ plot_title ++ ".png").

Definition check_stationarity (consolidated_dataframe : DataFrame)
    (user_login data_column : string) (threshold : float) : M bool :=
  series ← lift (pd.getitem consolidated_dataframe data_column);
  test_result ← lift (adfuller env series);
  let adf_statistic := fst test_result in
  let p_value := snd test_result in
  if PrimFloat.leb p_value threshold then
    print (PStationary data_column user_login adf_statistic p_value);;
    mret true
  else
    print (PNotStationary data_column user_login adf_statistic p_value);;
    mret true.

Definition check_causality (variables : list string) (training_result : VARResults)
    (user_login : string) (permutation_index : nat) (causality_threshold : float)
  : M (dict.t bool) :=
  for_each (fun cause_data_column =>
    for_each (fun effect_data_column (test_results : dict.t bool) =>
      if negb (String.eqb cause_data_column effect_data_column) then
        causality_results ← lift (test_causality training_result cause_data_column
                                    effect_data_column "wald" causality_threshold);
        file ← open_append (open_error env) (report_path user_login permutation_index);
        write file (test_summary causality_results ++ newline);;
        let granger_causality := String.eqb (conclusion causality_results) "reject" in
        let test_results :=
          dict.set (cause_data_column ++ "->" ++ effect_data_column)
                   granger_causality test_results in
        print (PSummary (test_summary causality_results));;
        mret test_results
      else mret test_results) variables) variables [].

Definition get_lags_for_whiteness_test (user_login : string) (sample_size : Z)
    (candidate_order : Z) : M Z :=
  if sample_size <? 0 then raise (ValueError "math domain error")
  else
    let lags_for_whiteness := Z.max (round_sqrt sample_size) (candidate_order + 1) in
    log (LogInfo ("User " ++ user_login ++ ": Portmanteau test using lags "
                    ++ pretty lags_for_whiteness ++ " for VAR(" ++ pretty candidate_order
                    ++ ") and " ++ pretty sample_size ++ " samples"));;
    mret lags_for_whiteness.

Definition refit_warning (user_login : string) (candidate_order : Z) : LogRecord :=
  LogWarning ("ALERT! Serial correlation in residuals for user " ++ user_login
                ++ ". Increasing lag order to " ++ pretty candidate_order).

(** The [while] loop of [fit_var_model]; it ends because
    [13 - candidate_order] decreases while [candidate_order <= 12]. *)
Equations? refit_loop (var_model : VARModel) (user_login : string) (sample_size : Z)
    (candidate_order : Z)
    (fitted : VARResults * WhitenessTestResults * NormalityTestResults)
  : M (VARResults * WhitenessTestResults * NormalityTestResults)
  by wf (Z.to_nat (13 - candidate_order)) lt :=
  refit_loop var_model user_login sample_size candidate_order
             (training_result, whiteness_result, normality_result)
    with String.eqb (conclusion whiteness_result) "reject" := {
    | false => mret (training_result, whiteness_result, normality_result)
    | true with Z_le_dec candidate_order 12 := {
      | right _ => mret (training_result, whiteness_result, normality_result)
      | left _ =>
          let candidate_order := candidate_order + 1 in
          log (refit_warning user_login candidate_order);;
          training_result ← lift (fit var_model candidate_order);
          nlags ← get_lags_for_whiteness_test user_login sample_size candidate_order;
          whiteness_result ← lift (test_whiteness training_result nlags);
          normality_result ← lift (test_normality training_result);
          refit_loop var_model user_login sample_size candidate_order
                     (training_result, whiteness_result, normality_result) } }.
Proof. lia. Qed.

Definition fit_var_model (var_model : VARModel) (information_criterion : string)
    (user_login : string) (sample_size : Z)
  : M (VARResults * WhitenessTestResults * NormalityTestResults * LagOrderResults) :=
  order_results ← lift (select_order var_model);
  candidate_order ← lift (match dict.get information_criterion
                                  (selected_orders order_results) with
                          | Some k => Returned k
                          | None => Raised (KeyError information_criterion)
                          end);
  training_result ← lift (fit var_model candidate_order);
  nlags ← get_lags_for_whiteness_test user_login sample_size candidate_order;
  whiteness_result ← lift (test_whiteness training_result nlags);
  normality_result ← lift (test_normality training_result);
  fitted ← refit_loop var_model user_login sample_size candidate_order
             (training_result, whiteness_result, normality_result);
  let training_result := fst (fst fitted) in
  let whiteness_result := snd (fst fitted) in
  let normality_result := snd fitted in
  print (PSummary (fit_summary training_result));;
  print (PSummary (test_summary whiteness_result));;
  print (PSummary (test_summary normality_result));;
  mret (training_result, whiteness_result, normality_result, order_results).

Definition structural_analysis_failed (user_login : string) (e : PyExc) : M unit :=
  log (LogError (format_exc env e));;
  log (LogError ("Cannot do structural analysis for user " ++ user_login)).

Definition artifact_path (user_login project kind calendar_interval : string)
    (permutation_index : nat) : string :=
  IMAGE_DIRECTORY ++ user_login ++ "_" ++ project ++ "_" ++ kind ++ "_"
    ++ calendar_interval ++ "_" ++ pretty permutation_index ++ ".png".

(** [try: ... except Exception: ... finally: return causality_results].
    The local [causality_results] is rebound only when [check_causality]
    has returned; the [return] in [finally] discards an exception that the
    [except] clause did not take. *)
Definition do_structural_analysis (variables : list string)
    (training_result : VARResults) (periods : Z)
    (user_login project calendar_interval : string) (permutation_index : nat)
  : M (dict.t bool) :=
  fun w =>
    let causality_results : dict.t bool := [] in
    let handle (causality_results : dict.t bool) (e : PyExc) (w1 : World) :=
      if isinstance e "Exception" then
        (structural_analysis_failed user_login e;; mret causality_results) w1
      else (Returned causality_results, w1) in
    match check_causality variables training_result user_login permutation_index
                          default_threshold w with
    | (Raised e, w1) => handle causality_results e w1
    | (Returned checked, w1) =>
        let causality_results := checked in
        match (impulse_response ← lift (irf training_result periods);
               lift (irf_plot impulse_response);;
               savefig (artifact_path user_login project "impulse_response"
                          calendar_interval permutation_index);;
               lift (irf_plot_cum_effects impulse_response);;
               savefig (artifact_path user_login project "cumulative_response"
                          calendar_interval permutation_index);;
               variance_decomposition ← lift (fevd training_result periods);
               lift (fevd_plot variance_decomposition);;
               savefig (artifact_path user_login project "variance_decomposition"
                          calendar_interval permutation_index)) w1 with
        | (Raised e, w2) => handle causality_results e w2
        | (Returned _, w2) => (Returned causality_results, w2)
        end
    end.

(** [for test, result in causality_results.items(): ...] *)
Definition accumulate (item : string * bool) (result_analysis : dict.t Value)
  : M (dict.t Value) :=
  let test := fst item in
  let result := snd item in
  if dict.contains test result_analysis then
    lift (set_add test (VBool result) result_analysis)
  else
    let result_analysis := dict.set test (VSet ∅) result_analysis in
    lift (set_add test (VBool result) result_analysis).

Definition write_report (user_report_file : string) (var_order_result : LagOrderResults)
    (training_result : VARResults) (whiteness_result : WhitenessTestResults)
    (normality_result : NormalityTestResults) : M unit :=
  file ← open_append (open_error env) user_report_file;
  truncate file;;
  file ← write file (order_summary var_order_result ++ newline);
  file ← write file (fit_summary training_result ++ newline);
  file ← write file (test_summary whiteness_result ++ newline);
  file ← write file (test_summary normality_result ++ newline);
  mret tt.

(** Lines 171-193: the verdicts of one fit go into [result_analysis]. *)
Definition record_diagnostics (user_login : string) (training_result : VARResults)
    (whiteness_result : WhitenessTestResults) (normality_result : NormalityTestResults)
    (result_analysis : dict.t Value) : M (dict.t Value) :=
  result_analysis ← lift (set_add var_order_key (VInt (k_ar training_result))
                            result_analysis);
  result_analysis ←
    (if String.eqb (conclusion whiteness_result) "reject" then
       log (LogError ("ALERT! Serial correlation found in the residuals for user "
                        ++ user_login));;
       lift (set_add serial_correlation_key (VBool true) result_analysis)
     else lift (set_add serial_correlation_key (VBool false) result_analysis));
  if String.eqb (conclusion normality_result) "reject" then
    log (LogError ("ALERT! Residuals are NOT Gaussian white noise for user "
                     ++ user_login));;
    lift (set_add residual_white_noise_key (VBool false) result_analysis)
  else lift (set_add residual_white_noise_key (VBool true) result_analysis).

Section PermutationLoop.
Variables (user_login : string) (variables : list string)
          (project calendar_interval information_criterion : string)
          (periods : Z) (train_sample_size : nat).

(** The body of the loop, given the table the columns are taken from. *)
Definition permutation_step (source : DataFrame) (item : nat * list string)
    (st : LoopState) : M LoopState :=
  let permutation_index := fst item in
  let permutation := snd item in
  print (PPermutation permutation_index permutation);;
  train_dataset ← lift (pd.getitem_list source permutation);
  var_model ← lift (VAR env train_dataset);
  fitted ← fit_var_model var_model information_criterion user_login
             (Z.of_nat train_sample_size);
  let training_result := fst (fst (fst fitted)) in
  let whiteness_result := snd (fst (fst fitted)) in
  let normality_result := snd (fst fitted) in
  let var_order_result := snd fitted in
  let user_report_file := report_path user_login permutation_index in
  write_report user_report_file var_order_result training_result whiteness_result
               normality_result;;
  result_analysis ← record_diagnostics user_login training_result whiteness_result
                      normality_result (result_analysis st);
  causality_results ← do_structural_analysis variables training_result periods
                        user_login project calendar_interval permutation_index;
  result_analysis ← for_each accumulate (dict.items causality_results) result_analysis;
  mret (mkLoop train_dataset result_analysis
          (permutation_results st ++
             [mkPermutationResult permutation_index permutation user_report_file
                (k_ar training_result)
                (String.eqb (conclusion whiteness_result) "reject")
                (negb (String.eqb (conclusion normality_result) "reject"))
                causality_results])).

(** [train_dataset = train_dataset[list(permutation)]]: the columns are
    taken from the table of the previous iteration. *)
Definition permutation_body (item : nat * list string) (st : LoopState) : M LoopState :=
  permutation_step (train_dataset st) item st.
End PermutationLoop.

Definition initial_analysis (train_sample_size : nat) : dict.t Value :=
  [ (train_sample_size_key, VList [Z.of_nat train_sample_size]);
    (var_order_key, VSet ∅);
    (serial_correlation_key, VSet ∅);
    (residual_white_noise_key, VSet ∅) ].

Definition train_var_model_loop (consolidated_dataframe : DataFrame)
    (user_login : string) (variables : list string)
    (project calendar_interval information_criterion : string) (periods : Z)
  : M LoopState :=
  let test_observations := 6%nat in
  let train_dataset := pd.drop_last test_observations consolidated_dataframe in
  let test_dataset := pd.keep_last test_observations consolidated_dataframe in
  let train_sample_size := pd.len train_dataset in
  print (PTrainTest user_login train_sample_size (pd.len test_dataset));;
  for_each (permutation_body user_login variables project calendar_interval
              information_criterion periods train_sample_size)
           (enumerate (itertools.permutations variables))
           (mkLoop train_dataset (initial_analysis train_sample_size) []).

Definition train_var_model (consolidated_dataframe : DataFrame)
    (user_login : string) (variables : list string)
    (project calendar_interval information_criterion : string) (periods : Z)
  : M (dict.t Value) :=
  st ← train_var_model_loop consolidated_dataframe user_login variables project
         calendar_interval information_criterion periods;
  mret (result_analysis st).

(** The loop as the specification asks for it: every iteration takes its
    columns from the full training table, not from the table of the
    previous iteration. *)
Definition train_var_model_loop_fresh (consolidated_dataframe : DataFrame)
    (user_login : string) (variables : list string)
    (project calendar_interval information_criterion : string) (periods : Z)
  : M LoopState :=
  let test_observations := 6%nat in
  let train_dataset := pd.drop_last test_observations consolidated_dataframe in
  let test_dataset := pd.keep_last test_observations consolidated_dataframe in
  let train_sample_size := pd.len train_dataset in
  print (PTrainTest user_login train_sample_size (pd.len test_dataset));;
  for_each (permutation_step user_login variables project calendar_interval
              information_criterion periods train_sample_size train_dataset)
           (enumerate (itertools.permutations variables))
           (mkLoop train_dataset (initial_analysis train_sample_size) []).

Definition train_var_model_fresh (consolidated_dataframe : DataFrame)
    (user_login : string) (variables : list string)
    (project calendar_interval information_criterion : string) (periods : Z)
  : M (dict.t Value) :=
  st ← train_var_model_loop_fresh consolidated_dataframe user_login variables project
         calendar_interval information_criterion periods;
  mret (result_analysis st).

Definition plot_seasonal_decomposition (consolidated_dataframe : DataFrame)
    (user_login project column : string) : M unit :=
  series ← lift (pd.getitem consolidated_dataframe column);
  merges_performed_decomposition ← lift (seasonal_decompose env series);
  lift (decompose_plot merges_performed_decomposition);;
  savefig (IMAGE_DIRECTORY ++ user_login ++ "_" ++ project
             ++ "_seasonal_decomposition_" ++ column ++ ".png").

Section Consolidate.
Variables (es : Elasticsearch) (pull_request_index user_login : string)
          (variables : list string) (calendar_interval : string).

(** Lines 235-238 *)
Definition consolidate_concat (data : list DataFrame) : M DataFrame :=
  consolidated_dataframe ← lift (pd.concat (concat_frames env) data);
  let consolidated_dataframe := pd.fillna 0 consolidated_dataframe in
  let consolidated_dataframe := pd.rename_axis "metric" consolidated_dataframe in
  mret consolidated_dataframe.

(** Lines 226-233, then the above *)
Definition consolidate_successful (data : list DataFrame) : M DataFrame :=
  if bool_decide (MERGES_SUCCESSFUL_COLUMN env ∈ variables) then
    requests_merged_dataframe ←
      lift (get_requests_merged env es pull_request_index user_login calendar_interval);
    if bool_decide (pd.len requests_merged_dataframe = 0%nat) then
      log (LogError ("User " ++ user_login
                       ++ " does not have PRs merged by other developers"));;
      mret pd.DataFrame_new
    else consolidate_concat (data ++ [requests_merged_dataframe])
  else consolidate_concat data.

(** Lines 221-224, then the above *)
Definition consolidate_requested (data : list DataFrame) : M DataFrame :=
  if bool_decide (MERGES_REQUESTED_COLUMN env ∈ variables) then
    merge_requests_dataframe ←
      lift (get_merge_requests env es pull_request_index user_login calendar_interval);
    consolidate_successful (data ++ [merge_requests_dataframe])
  else consolidate_successful data.

Definition consolidate_dataframe : M DataFrame :=
  let data : list DataFrame := [] in
  if bool_decide (MERGES_PERFORMED_COLUMN env ∈ variables) then
    merges_performed_dataframe ←
      lift (get_merges_performed env es pull_request_index user_login calendar_interval);
    if bool_decide (pd.len merges_performed_dataframe = 0%nat) then
      log (LogError ("User " ++ user_login
                       ++ " does not merge PRs for other developers"));;
      mret pd.DataFrame_new
    else consolidate_requested (data ++ [merges_performed_dataframe])
  else consolidate_requested data.
End Consolidate.

Definition plotting_failed (user_login : string) (e : PyExc) : M unit :=
  log (LogError (format_exc env e));;
  log (LogError ("Error while building diagnosis plots for user " ++ user_login)).

Definition diagnostic_plots (consolidated_dataframe after_differencing_data : DataFrame)
    (user_login project : string) : M unit :=
  plot_dataframe consolidated_dataframe
                 (user_login ++ "_" ++ project ++ "_before_differencing");;
  plot_dataframe after_differencing_data
                 (user_login ++ "_" ++ project ++ "_after_differencing");;
  plot_seasonal_decomposition consolidated_dataframe user_login project
                              (MERGES_PERFORMED_COLUMN env).

(** What [analyse_user] holds when it reaches the plotting step. *)
Record UserAnalysis := mkUserAnalysis {
  ua_consolidated : DataFrame;
  ua_differenced : DataFrame;
  ua_record : dict.t PyObj;
  ua_var_results : dict.t Value
}.

(** Lines 244-275: [None] is the early [return None]. *)
Definition analyse_user_var (es : Elasticsearch) (pull_request_index user_login : string)
    (variables : list string) (calendar_interval information_criterion project : string)
  : M (option UserAnalysis) :=
  consolidated_dataframe ← consolidate_dataframe es pull_request_index user_login
                             variables calendar_interval;
  let data_points := pd.len consolidated_dataframe in
  if bool_decide (pd.len consolidated_dataframe = 0%nat) then
    print (PNoDataPoints user_login pull_request_index);;
    mret None
  else
    print (PDataPoints user_login data_points calendar_interval);;
    let analysis_result : dict.t PyObj :=
      [ ("user_login", OStr user_login);
        ("data_points", OInt (Z.of_nat data_points));
        ("index", OStr pull_request_index) ] in
    analysis_result ←
      for_each (fun column analysis_result =>
                  series ← lift (pd.getitem consolidated_dataframe column);
                  mret (dict.set column (OTotals (map pd.sum series)) analysis_result))
               variables analysis_result;
    let after_differencing_data := pd.diff consolidated_dataframe in
    let after_differencing_data := pd.dropna after_differencing_data in
    print PDifferencing;;
    analysis_result ←
      for_each (fun variable analysis_result =>
                  is_stationary ← check_stationarity after_differencing_data user_login
                                    variable default_threshold;
                  if negb is_stationary then
                    log (LogError ("ALERT! " ++ variable ++ " is not stationary"));;
                    mret (dict.set (variable ++ "_stationary") (OBool false)
                                   analysis_result)
                  else
                    mret (dict.set (variable ++ "_stationary") (OBool true)
                                   analysis_result))
               variables analysis_result;
    selected ← lift (pd.getitem_list after_differencing_data variables);
    var_results ← train_var_model selected user_login variables project
                    calendar_interval information_criterion 24;
    mret (Some (mkUserAnalysis consolidated_dataframe after_differencing_data
                  analysis_result var_results)).

(** Lines 285-286: [for key, values in var_results.items():
    analysis_result[key] = " ".join([str(value) for value in values])] *)
Definition summary_record (ua : UserAnalysis) : dict.t PyObj :=
  fold_left (fun analysis_result kv =>
               dict.set (fst kv) (OStr (join " " (str_values env (snd kv))))
                        analysis_result)
            (dict.items (ua_var_results ua)) (ua_record ua).

(** Lines 277-288 *)
Definition analyse_user_plots (user_login project : string) (ua : UserAnalysis)
  : M (option (dict.t PyObj)) :=
  try_except
    (diagnostic_plots (ua_consolidated ua) (ua_differenced ua) user_login project)
    "ValueError" (plotting_failed user_login);;
  let analysis_result := summary_record ua in
  mret (Some analysis_result).

Definition analyse_user (es : Elasticsearch) (pull_request_index user_login : string)
    (variables : list string) (calendar_interval information_criterion project : string)
  : M (option (dict.t PyObj)) :=
  reached ← analyse_user_var es pull_request_index user_login variables
              calendar_interval information_criterion project;
  match reached with
  | None => mret None
  | Some ua => analyse_user_plots user_login project ua
  end.

Definition analysis_failed (user_login : string) (e : PyExc) : M unit :=
  log (LogError (format_exc env e));;
  log (LogError ("Cannot analyse user " ++ user_login)).

(** [document_count[0]['count']] then [int(...)] *)
Definition first_count (document_count : list (dict.t string)) : outcome Z :=
  match document_count with
  | [] => Raised (IndexError "list index out of range")
  | first :: _ =>
      match dict.get "count" first with
      | None => Raised (KeyError "count")
      | Some text => int_of_str env text
      end
  end.

(** The body of the loop over mergers: [try: ... except Exception: ...] *)
Definition analyse_merger (es : Elasticsearch) (pull_request_index : string)
    (variables : list string) (calendar_interval information_criterion : string)
    (user_login : string) (merger_data : list (dict.t PyObj))
  : M (list (dict.t PyObj)) :=
  try_except
    (user_analysis ← analyse_user es pull_request_index user_login variables
                       calendar_interval information_criterion pull_request_index;
     match user_analysis with
     | Some ((_ :: _) as row) => mret ((merger_data ++ [row])%list)
     | _ => mret merger_data
     end)
    "Exception"
    (fun e => analysis_failed user_login e;; mret merger_data).

Definition analyse_project (es : Elasticsearch) (pull_request_index : string)
    (calendar_interval : string) (variables : list string)
    (information_criterion : string) : M (Z * list (dict.t PyObj)) :=
  lift (indices_refresh es pull_request_index);;
  document_count ← lift (cat_count es pull_request_index);
  documents ← lift (first_count document_count);
  print (PDocuments pull_request_index documents);;
  all_mergers ← lift (get_all_mergers env es pull_request_index);
  merger_data ← for_each (analyse_merger es pull_request_index variables
                            calendar_interval information_criterion)
                         all_mergers [];
  let consolidated_analysis := merger_data in
  mret (documents, consolidated_analysis).
End Script.

(** ** Notions used in the statements *)

Definition is_warning (r : LogRecord) : bool :=
  match r with LogWarning _ => true | _ => false end.

(** The refit warnings in a log. *)
Definition warnings (records : list LogRecord) : list LogRecord :=
  List.filter is_warning records.

(** The ordered pairs [check_causality] visits, in its order. *)
Definition causality_pairs (variables : list string) : list (string * string) :=
  flat_map (fun cause =>
              flat_map (fun effect =>
                          if negb (String.eqb cause effect) then [(cause, effect)] else [])
                       variables)
           variables.

(** The verdicts already computed when the causality tests stop, whether
    they stop at the end or at the first test or file that fails: what the
    specification's failure semantics asks [do_structural_analysis] to
    return. *)
Fixpoint verdicts_before_failure (env : Env) (training_result : VARResults)
    (user_login : string) (permutation_index : nat) (threshold : float)
    (pairs : list (string * string)) (computed : dict.t bool) : dict.t bool :=
  match pairs with
  | [] => computed
  | (cause, effect) :: rest =>
      match test_causality training_result cause effect "wald" threshold,
            open_error env (report_path user_login permutation_index) with
      | Returned r, None =>
          verdicts_before_failure env training_result user_login permutation_index
            threshold rest
            (dict.set (cause ++ "->" ++ effect) (String.eqb (conclusion r) "reject")
                      computed)
      | _, _ => computed
      end
  end.

(** The verdicts one permutation reports under a key. *)
Definition verdicts_for (key : string) (report : dict.t bool) : list PyVal :=
  map (fun kv => VBool (snd kv))
      (List.filter (fun kv => String.eqb (fst kv) key) (dict.items report)).

(** The distinct verdicts all permutations report under a key. *)
Definition observed (key : string) (results : list PermutationResult) : gset PyVal :=
  list_to_set (flat_map (fun r => verdicts_for key (pr_causality r)) results).

Definition fixed_keys : list string :=
  [train_sample_size_key; var_order_key; serial_correlation_key; residual_white_noise_key].

Definition preserves (R : World -> World -> Prop) {A} (m : M A) : Prop :=
  forall w o w1, m w = (o, w1) -> R w w1.

(** The paths of the image directory, where the figures go. *)
Definition is_figure (path : string) : bool := String.prefix IMAGE_DIRECTORY path.

(** Files are created, extended and, in the image directory, replaced;
    none is removed, and outside the image directory what a file held is
    still there, at the head of what it holds now. *)
Definition files_grow (w w1 : World) : Prop :=
  forall path text, files w !! path = Some text ->
    exists text1,
      files w1 !! path = Some text1
      /\ (is_figure path = false -> exists suffix, text1 = text ++ suffix).

(** The permutations announced on the output, in order: the lines
    [Permutation <index> : <permutation>], one at the head of every
    iteration of the loop of [train_var_model]. *)
Definition announced (out : list Printed) : list (nat * list string) :=
  flat_map (fun p => match p with
                     | PPermutation i permutation => [(i, permutation)]
                     | _ => []
                     end) out.

Definition announces (p : Printed) : bool :=
  match p with PPermutation _ _ => true | _ => false end.

(** Files stay, and no permutation is announced. *)
Definition steady (w w1 : World) : Prop :=
  files_grow w w1 /\ announced (stdout w1) = announced (stdout w).

(** The four summaries [train_var_model] writes for one permutation. *)
Definition report_text (var_order_result : LagOrderResults)
    (training_result : VARResults) (whiteness_result : WhitenessTestResults)
    (normality_result : NormalityTestResults) : string :=
  (order_summary var_order_result ++ newline)
    ++ (fit_summary training_result ++ newline)
    ++ (test_summary whiteness_result ++ newline)
    ++ (test_summary normality_result ++ newline).

Definition set_of (o : option Value) : gset PyVal :=
  match o with Some (VSet s) => s | _ => ∅ end.

(** The entry of [result_analysis] under a key after the given
    permutations: absent until a permutation reports the key, then the set
    of the verdicts reported. *)
Definition aggregated (key : string) (results : list PermutationResult) : option Value :=
  match flat_map (fun r => verdicts_for key (pr_causality r)) results with
  | [] => None
  | _ => Some (VSet (observed key results))
  end.

(** Whether a string contains [->]. *)
Fixpoint has_arrow (s : string) : bool :=
  match s with
  | EmptyString => false
  | String c rest => String.prefix "->" s || has_arrow rest
  end.

Definition labelled (r : PermutationResult) : nat * list string :=
  (pr_index r, pr_permutation r).

(** The report of a permutation result is in place. *)
Definition reported (user_login : string) (w : World) (r : PermutationResult)
  : Prop :=
  pr_report r = report_path user_login (pr_index r) /\ is_Some (files w !! pr_report r).

(** What the loop keeps true of its table: asking it for variables gives
    what the full training table gives. *)
Definition selects_like_full (variables : list string) (full : DataFrame)
    (st : LoopState) : Prop :=
  forall q, (forall l, In l q -> In l variables) ->
            pd.getitem_list (train_dataset st) q = pd.getitem_list full q.

Definition add_log (r : LogRecord) (w : World) : World :=
  mkWorld (files w) (images w) (stdout w) (logging w ++ [r]).

Definition add_print (p : Printed) (w : World) : World :=
  mkWorld (files w) (images w) (stdout w ++ [p]) (logging w).

(** The warnings of [m] refits that start above the order [k]. *)
Definition refit_warnings (user_login : string) (k : Z) (m : nat) : list LogRecord :=
  map (refit_warning user_login) (seqZ (k + 1) (Z.of_nat m)).

(** The verdict for a pair, when its test returns. *)
Definition verdict_of (training_result : VARResults) (causality_threshold : float)
    (cause effect : string) (verdict : bool) : Prop :=
  exists r, test_causality training_result cause effect "wald" causality_threshold
            = Returned r
            /\ verdict = String.eqb (conclusion r) "reject".

(** A dictionary holds verdicts of the given pairs only, and one for each. *)
Definition verdicts_of (training_result : VARResults) (causality_threshold : float)
    (pairs : list (string * string)) (d : dict.t bool) : Prop :=
  (forall k v, dict.get k d = Some v ->
     exists cause effect,
       In (cause, effect) pairs /\ k = cause ++ "->" ++ effect
       /\ verdict_of training_result causality_threshold cause effect v)
  /\ (forall cause effect,
        In (cause, effect) pairs -> dict.contains (cause ++ "->" ++ effect) d = true).

(** The pairs of one cause with the given effects. *)
Definition pairs_of (cause : string) (effects : list string) : list (string * string) :=
  flat_map (fun effect => if negb (String.eqb cause effect) then [(cause, effect)] else [])
           effects.

Definition orders_used (results : list PermutationResult) : gset PyVal :=
  list_to_set (map (fun r => VInt (pr_var_order r)) results).

Definition serial_correlations (results : list PermutationResult) : gset PyVal :=
  list_to_set (map (fun r => VBool (pr_serial_correlation r)) results).

Definition white_noises (results : list PermutationResult) : gset PyVal :=
  list_to_set (map (fun r => VBool (pr_residual_white_noise r)) results).

(** The four entries of [result_analysis] that are there from the start,
    in terms of the permutations gone through. *)
Definition diagnostics_collected (train_sample_size : nat) (st : LoopState) : Prop :=
  dict.get var_order_key (result_analysis st)
  = Some (VSet (orders_used (permutation_results st)))
  /\ dict.get serial_correlation_key (result_analysis st)
     = Some (VSet (serial_correlations (permutation_results st)))
  /\ dict.get residual_white_noise_key (result_analysis st)
     = Some (VSet (white_noises (permutation_results st)))
  /\ dict.get train_sample_size_key (result_analysis st)
     = Some (VList [Z.of_nat train_sample_size]).

Definition is_returned {A} (o : outcome A) : bool :=
  match o with Returned _ => true | Raised _ => false end.

(** ** A small concrete installation, for running the script *)

Module Demo.
Definition test (verdict : string) : HypothesisTestResults :=
  mkTest verdict ("conclusion: " ++ verdict).

(** A fit whose whiteness test passes from lag order 3 on, and which finds
    the first column of its table to cause the others. *)
Definition results_for (df : DataFrame) (lags : Z) : VARResults :=
  mkVARResults lags ("VAR(" ++ pretty lags ++ ")")
    (fun nlags => Returned (test (if lags <? 3 then "reject" else "fail to reject")))
    (Returned (test "reject"))
    (fun causing caused kind signif =>
       Returned (test (if bool_decide (head (map fst (columns df)) = Some causing)
                       then "reject" else "fail to reject")))
    (fun periods => Returned (mkIR (Returned tt) (Returned tt)))
    (fun periods => Returned (mkFEVD (Returned tt))).

Definition orders : LagOrderResults := mkLagOrder [("aic", 2); ("bic", 1)] "orders".

Definition model_for (df : DataFrame) : VARModel :=
  mkVAR (Returned orders) (fun lags => Returned (results_for df lags)).

Definition es : Elasticsearch :=
  mkES (fun _ => Returned tt) (fun _ => Returned [[("count", "42")]]).

Definition frame (label : string) (cells : list Z) : DataFrame :=
  mkFrame (seqZ 0 (Z.of_nat (length cells))) [(label, map Some cells)].

Definition performed : DataFrame := frame "merges_performed" [1; 2; 3; 4; 5; 6; 7; 8; 9].
Definition requested : DataFrame := frame "merges_requested" [1; 0; 3; 0; 5; 0; 7; 0; 9].
Definition successful : DataFrame := frame "merges_successful" [0; 2; 0; 4; 0; 6; 0; 8; 9].

(** An outer join that keeps the buckets in the order of their first
    appearance. *)
Definition join (frames : list DataFrame) : outcome DataFrame :=
  let buckets := rev (remove_dups (rev (flat_map index frames))) in
  Returned (mkFrame buckets (flat_map (pd.reindex buckets) frames)).

(** Booleans and small integers in increasing order. *)
Definition rank (v : PyVal) : Z :=
  match v with
  | VInt z => z
  | VBool b => if b then 1 else 0
  end.

Definition ranked (a b : PyVal) : Prop := rank a <= rank b.

#[local] Instance ranked_dec : RelDecision ranked.
Proof. intros a b. unfold ranked. apply Z.le_dec. Defined.

Definition in_order (s : gset PyVal) : list PyVal :=
  merge_sort ranked (elements s).

Definition env_with (performed requested successful : DataFrame)
    (plot : outcome unit) : Env :=
  mkEnv (fun _ => Returned (0%float, 0.5%float))
        (fun df => Returned (model_for df))
        (fun _ => Returned (mkDecompose (Returned tt)))
        (fun _ _ => plot)
        (fun _ => None) (fun _ => None)
        (fun e => "Traceback: " ++ exc_msg e)
        (fun _ => Returned 42)
        "merges_performed" "merges_requested" "merges_successful"
        (fun _ _ _ _ => Returned performed)
        (fun _ _ _ _ => Returned requested)
        (fun _ _ _ _ => Returned successful)
        (fun _ _ => Returned ["alice"; "bob"])
        (fun path saved => "figure " ++ pretty (length saved))
        in_order
        join.

Definition env : Env := env_with performed requested successful (Returned tt).

Definition variables : list string :=
  ["merges_performed"; "merges_requested"; "merges_successful"].

(** The table [analyse_user] hands to [train_var_model]. *)
Definition differenced : DataFrame :=
  mkFrame (seqZ 1 8)
    [ ("merges_performed", map Some [1; 1; 1; 1; 1; 1; 1; 1]);
      ("merges_requested", map Some [-1; 3; -3; 5; -5; 7; -7; 9]);
      ("merges_successful", map Some [2; -2; 4; -4; 6; -6; 8; 1]) ].

(** A world in which an earlier run has left a report for permutation 0. *)
Definition stale : string := "report of an earlier run
".
Definition after_earlier_run : World :=
  mkWorld {[ report_path "alice" 0 := stale ]} [] [] [].
End Demo.

(** The analysis of the first user of the small installation, up to the
    plots, when plotting a frame fails with the given exception. *)
Abbreviation demo_reached e :=
  (analyse_user_var (Demo.env_with Demo.performed Demo.requested Demo.successful
                       (Raised e))
     Demo.es "demo" "alice" Demo.variables "month" "bic" "demo" empty_world)
  (only parsing).

Abbreviation demo_analysis e :=
  (match fst (demo_reached e) with
   | Returned (Some ua) => ua
   | _ => mkUserAnalysis pd.DataFrame_new pd.DataFrame_new [] []
   end)
  (only parsing).

(** * Properties *)

(** ** Runs of monadic code *)

Lemma bind_unfold {A B} (m : M A) (k : A -> M B) (w : World) :
  (m ≫= k) w = match m w with
               | (Returned a, w1) => k a w1
               | (Raised e, w1) => (Raised e, w1)
               end.
Proof. reflexivity. Qed.

Lemma bind_returned {A B} (m : M A) (k : A -> M B) (w w1 : World) (a : A) :
  m w = (Returned a, w1) -> (m ≫= k) w = k a w1.
Proof. intros H. rewrite bind_unfold, H. reflexivity. Qed.

Lemma bind_raised {A B} (m : M A) (k : A -> M B) (w w1 : World) (e : PyExc) :
  m w = (Raised e, w1) -> (m ≫= k) w = (Raised e, w1).
Proof. intros H. rewrite bind_unfold, H. reflexivity. Qed.

Lemma bind_returned_inv {A B} (m : M A) (k : A -> M B) (w w2 : World) (b : B) :
  (m ≫= k) w = (Returned b, w2) ->
  exists a w1, m w = (Returned a, w1) /\ k a w1 = (Returned b, w2).
Proof.
  rewrite bind_unfold. destruct (m w) as [[a|e] w1]; intros H.
  - exists a, w1. split; [reflexivity | exact H].
  - discriminate H.
Qed.

Lemma lift_run {A} (o : outcome A) (w : World) : lift o w = (o, w).
Proof. reflexivity. Qed.

Lemma mret_run {A} (a : A) (w : World) : (mret a : M A) w = (Returned a, w).
Proof. reflexivity. Qed.

Lemma lift_returned_inv {A} (o : outcome A) (w w1 : World) (a : A) :
  lift o w = (Returned a, w1) -> o = Returned a /\ w1 = w.
Proof. unfold lift. intros H. injection H as -> ->. split; reflexivity. Qed.

Lemma mret_returned_inv {A} (a b : A) (w w1 : World) :
  (mret a : M A) w = (Returned b, w1) -> b = a /\ w1 = w.
Proof. intros H. injection H as -> ->. split; reflexivity. Qed.

Lemma returned_inj {A} (a b : A) (w1 w2 : World) :
  (Returned a, w1) = (Returned b, w2) -> a = b.
Proof. intros H. injection H as -> _. reflexivity. Qed.

(** A run that returns, in terms of its two components. *)
Lemma returned_run {A} (p : outcome A * World) (d : A) :
  is_returned (fst p) = true ->
  p = (Returned (match fst p with Returned a => a | Raised _ => d end), snd p).
Proof. destruct p as [[a|e] w]; simpl; [reflexivity | discriminate]. Qed.

Lemma returned_some_run {A} (p : outcome (option A) * World) (d : A) :
  match fst p with Returned (Some _) => true | _ => false end = true ->
  p = (Returned (Some (match fst p with Returned (Some a) => a | _ => d end)), snd p).
Proof. destruct p as [[[a|]|e] w]; simpl; (reflexivity || discriminate). Qed.

Lemma lookup_default {A} (l : list A) (i : nat) (d : A) :
  bool_decide (is_Some (l !! i)) = true -> l !! i = Some (default d (l !! i)).
Proof. intros H. apply bool_decide_eq_true_1 in H as [a ->]. reflexivity. Qed.

(** Invert a hypothesis saying that a sequence of binds returned. *)
Ltac run_inv H :=
  let a := fresh "a" in
  let w := fresh "w" in
  let Ha := fresh "Hrun" in
  lazymatch type of H with
  | (?m ≫= ?k) _ = (Returned _, _) =>
      apply bind_returned_inv in H; destruct H as (a & w & Ha & H); cbv beta in H
  | lift _ _ = (Returned _, _) =>
      apply lift_returned_inv in H; destruct H as [H ?]; subst
  | mret _ _ = (Returned _, _) =>
      apply mret_returned_inv in H; destruct H as [? ?]; subst
  end.

Lemma isinstance_Exception (e : PyExc) : isinstance e "Exception" = true.
Proof.
  unfold isinstance. apply bool_decide_eq_true.
  apply elem_of_app. right. apply list_elem_of_singleton. reflexivity.
Qed.

Lemma for_each_app {X S} (body : X -> S -> M S) (xs ys : list X) (s : S) (w : World) :
  for_each body (xs ++ ys) s w
  = match for_each body xs s w with
    | (Returned s1, w1) => for_each body ys s1 w1
    | (Raised e, w1) => (Raised e, w1)
    end.
Proof.
  revert s w. induction xs as [|x xs IH]; intros s w; simpl.
  - reflexivity.
  - rewrite !bind_unfold. destruct (body x s w) as [[s1|e] w1]; [apply IH | reflexivity].
Qed.

(** ** C1: the stationarity verdict *)

Section Stationarity.
Variable env : Env.

Lemma check_stationarity_returns_only_true
    (df : DataFrame) (user_login data_column : string) (threshold : float)
    (w w1 : World) (b : bool) :
  check_stationarity env df user_login data_column threshold w = (Returned b, w1) ->
  b = true.
Proof.
  unfold check_stationarity. intros H.
  run_inv H. run_inv H.
  destruct (PrimFloat.leb _ _); run_inv H; run_inv H; reflexivity.
Qed.
End Stationarity.

(** C1: whatever the ADF p-value is, on either side of the threshold,
    [check_stationarity] returns [True]; only the printed line tells the two
    branches apart. *)
Theorem check_stationarity_always_true
    (env : Env) (df : DataFrame) (user_login data_column : string) (threshold : float)
    (series : list Series) (adf_statistic p_value : float) (w : World) :
  pd.getitem df data_column = Returned series ->
  adfuller env series = Returned (adf_statistic, p_value) ->
  check_stationarity env df user_login data_column threshold w
  = (Returned true,
     mkWorld (files w) (images w)
       (stdout w ++ [if PrimFloat.leb p_value threshold
                     then PStationary data_column user_login adf_statistic p_value
                     else PNotStationary data_column user_login adf_statistic p_value])
       (logging w)).
Proof.
  intros Hcol Hadf. unfold check_stationarity.
  rewrite bind_unfold, Hcol, lift_run.
  rewrite bind_unfold, Hadf, lift_run. simpl.
  destruct (PrimFloat.leb p_value threshold); reflexivity.
Qed.

Lemma check_stationarity_always_true_witness :
  fst (check_stationarity Demo.env Demo.differenced "alice" "merges_requested"
         default_threshold empty_world) = Returned true.
Proof.
  rewrite (check_stationarity_always_true Demo.env Demo.differenced "alice"
             "merges_requested" default_threshold
             [map Some [-1; 3; -3; 5; -5; 7; -7; 9]] 0%float 0.5%float empty_world);
    reflexivity.
Defined.

(** ** C2: the refinement loop of [fit_var_model] *)

Lemma refit_loop_step (var_model : VARModel) (user_login : string) (sample_size : Z)
    (candidate_order : Z) (training_result : VARResults)
    (whiteness_result : WhitenessTestResults) (normality_result : NormalityTestResults) :
  refit_loop var_model user_login sample_size candidate_order
             (training_result, whiteness_result, normality_result)
  = if String.eqb (conclusion whiteness_result) "reject" && (candidate_order <=? 12)
    then
      log (refit_warning user_login (candidate_order + 1));;
      training_result ← lift (fit var_model (candidate_order + 1));
      nlags ← get_lags_for_whiteness_test user_login sample_size (candidate_order + 1);
      whiteness_result ← lift (test_whiteness training_result nlags);
      normality_result ← lift (test_normality training_result);
      refit_loop var_model user_login sample_size (candidate_order + 1)
                 (training_result, whiteness_result, normality_result)
    else mret (training_result, whiteness_result, normality_result).
Proof.
  simp refit_loop.
  destruct (String.eqb (conclusion whiteness_result) "reject"); simpl; [|reflexivity].
  destruct (Z_le_dec candidate_order 12) as [Hle|Hgt]; simpl.
  - rewrite (proj2 (Z.leb_le _ _) Hle). reflexivity.
  - rewrite (proj2 (Z.leb_gt _ _)) by lia. reflexivity.
Qed.

Lemma warnings_app (l1 l2 : list LogRecord) :
  warnings (l1 ++ l2) = (warnings l1 ++ warnings l2)%list.
Proof. unfold warnings. apply List.filter_app. Qed.

Lemma get_lags_run (user_login : string) (sample_size candidate_order : Z) (w : World) :
  0 <= sample_size ->
  exists msg,
    get_lags_for_whiteness_test user_login sample_size candidate_order w
    = (Returned (Z.max (round_sqrt sample_size) (candidate_order + 1)),
       mkWorld (files w) (images w) (stdout w) (logging w ++ [LogInfo msg])).
Proof.
  intros Hn. unfold get_lags_for_whiteness_test.
  rewrite (proj2 (Z.ltb_ge _ _)) by lia.
  eexists. reflexivity.
Qed.

Section Refits.
Variables (var_model : VARModel) (user_login : string) (sample_size : Z).
Variable fitted : Z -> VARResults.
Variable rejects : Z -> bool.
Hypothesis sample_size_nonneg : 0 <= sample_size.
Hypothesis fit_returns : forall lags, fit var_model lags = Returned (fitted lags).
Hypothesis whiteness_returns :
  forall lags nlags, exists r,
    test_whiteness (fitted lags) nlags = Returned r
    /\ String.eqb (conclusion r) "reject" = rejects lags.
Hypothesis normality_returns :
  forall lags, exists r, test_normality (fitted lags) = Returned r.

(** The loop goes from an order to the first order from there on at which
    the whiteness test does not reject or which is above 12, one refit and
    one warning per order passed. *)
Lemma refit_loop_stops (budget : nat) :
  forall (candidate_order : Z) (whiteness_result : WhitenessTestResults)
         (normality_result : NormalityTestResults) (w : World),
    Z.to_nat (13 - candidate_order) = budget ->
    String.eqb (conclusion whiteness_result) "reject" = rejects candidate_order ->
    exists stop whiteness_result1 normality_result1 w1,
      refit_loop var_model user_login sample_size candidate_order
                 (fitted candidate_order, whiteness_result, normality_result) w
      = (Returned (fitted stop, whiteness_result1, normality_result1), w1)
      /\ candidate_order <= stop
      /\ (forall k, candidate_order <= k < stop -> rejects k = true /\ k <= 12)
      /\ (rejects stop = false \/ 12 < stop)
      /\ String.eqb (conclusion whiteness_result1) "reject" = rejects stop
      /\ warnings (logging w1)
         = (warnings (logging w)
            ++ map (refit_warning user_login)
                   (seqZ (candidate_order + 1) (stop - candidate_order)))%list.
Proof.
  induction budget as [|budget IH]; intros k wr nr w Hbudget Hverdict;
    rewrite refit_loop_step, Hverdict.
  - rewrite (proj2 (Z.leb_gt k 12)), andb_false_r by lia.
    exists k, wr, nr, w. rewrite Z.sub_diag. simpl. rewrite app_nil_r.
    split; [reflexivity|]. split; [lia|]. split; [intros j Hj; lia|].
    split; [right; lia|]. split; [exact Hverdict | reflexivity].
  - rewrite (proj2 (Z.leb_le k 12)), andb_true_r by lia.
    destruct (rejects k) eqn:Hk.
    + rewrite bind_unfold. simpl.
      rewrite bind_unfold, fit_returns, lift_run.
      rewrite bind_unfold.
      match goal with
      | |- context [get_lags_for_whiteness_test ?u ?n ?c ?w0] =>
          destruct (get_lags_run u n c w0 sample_size_nonneg) as [msg Hlags]
      end.
      rewrite Hlags.
      destruct (whiteness_returns (k + 1) (Z.max (round_sqrt sample_size) (k + 1 + 1)))
        as (wr1 & Hwhite & Hverdict1).
      rewrite bind_unfold, Hwhite, lift_run.
      destruct (normality_returns (k + 1)) as (nr1 & Hnormal).
      rewrite bind_unfold, Hnormal, lift_run.
      cbv beta.
      assert (Hnext : Z.to_nat (13 - (k + 1)) = budget) by lia.
      match goal with
      | |- context [refit_loop _ _ _ _ _ ?w0] =>
          destruct (IH (k + 1) wr1 nr1 w0 Hnext Hverdict1)
            as (stop & wr2 & nr2 & w2 & Hrun & Hle & Hbefore & Hstop & Hverdict2 & Hlog)
      end.
      exists stop, wr2, nr2, w2. rewrite Hrun.
      split; [reflexivity|]. split; [lia|]. split.
      * intros j Hj. destruct (Z.eq_dec j k) as [->|Hne]; [split; [exact Hk | lia]|].
        apply Hbefore. lia.
      * split; [exact Hstop|]. split; [exact Hverdict2|].
        rewrite Hlog. simpl. rewrite !warnings_app. simpl.
        rewrite app_nil_r, <- app_assoc. simpl.
        rewrite (seqZ_cons (k + 1) (stop - k)) by lia.
        simpl. repeat f_equal; lia.
    + exists k, wr, nr, w. rewrite Z.sub_diag. simpl. rewrite app_nil_r.
      split; [reflexivity|]. split; [lia|]. split; [intros j Hj; lia|].
      split; [left; exact Hk|]. split; [congruence | reflexivity].
Qed.
End Refits.

(** C2: [fit_var_model] refits while the whiteness test concludes
    [reject] and the order is at most 12, and only then.  For fits and
    tests that return, with a whiteness verdict [rejects] depending on the
    order: it returns the fit of the first order [stop], from the initial
    one on, at which the test does not reject or which is above 12; every
    order before it was rejected and at most 12; it made one refit, with
    one warning, for each of the orders [initial_order + 1] to [stop].  In
    particular, with a test that always rejects it returns all the same:
    it stops at the first order above 12, that is at 13 or at the initial
    order when that is above, after [13 - initial_order] refits (none when
    that is negative). *)
Theorem fit_var_model_refits_while_rejected
    (var_model : VARModel) (information_criterion user_login : string)
    (sample_size : Z) (order_results : LagOrderResults) (initial_order : Z)
    (fitted : Z -> VARResults) (rejects : Z -> bool) (w : World) :
  0 <= sample_size < 2 ^ 48 ->
  select_order var_model = Returned order_results ->
  dict.get information_criterion (selected_orders order_results) = Some initial_order ->
  (forall lags, fit var_model lags = Returned (fitted lags)) ->
  (forall lags nlags, exists r,
      test_whiteness (fitted lags) nlags = Returned r
      /\ String.eqb (conclusion r) "reject" = rejects lags) ->
  (forall lags, exists r, test_normality (fitted lags) = Returned r) ->
  exists stop whiteness_result normality_result w1,
    fit_var_model var_model information_criterion user_login sample_size w
    = (Returned (fitted stop, whiteness_result, normality_result, order_results), w1)
    /\ initial_order <= stop
    /\ (forall k, initial_order <= k < stop -> rejects k = true /\ k <= 12)
    /\ (rejects stop = false \/ 12 < stop)
    /\ String.eqb (conclusion whiteness_result) "reject" = rejects stop
    /\ warnings (logging w1)
       = (warnings (logging w)
          ++ map (refit_warning user_login)
                 (seqZ (initial_order + 1) (stop - initial_order)))%list
    /\ length (warnings (logging w1))
       = (length (warnings (logging w)) + Z.to_nat (stop - initial_order))%nat
    /\ ((forall k, rejects k = true) ->
        stop = Z.max initial_order 13
        /\ length (warnings (logging w1))
           = (length (warnings (logging w)) + Z.to_nat (13 - initial_order))%nat).
Proof.
  intros [Hsize _] Horders Hselected Hfit Hwhite Hnormal.
  unfold fit_var_model.
  rewrite bind_unfold, Horders, lift_run.
  rewrite bind_unfold, Hselected, lift_run.
  rewrite bind_unfold, Hfit, lift_run.
  rewrite bind_unfold.
  destruct (get_lags_run user_login sample_size initial_order w Hsize) as [msg Hlags].
  rewrite Hlags.
  destruct (Hwhite initial_order (Z.max (round_sqrt sample_size) (initial_order + 1)))
    as (wr & Hwr & Hverdict).
  rewrite bind_unfold, Hwr, lift_run.
  destruct (Hnormal initial_order) as (nr & Hnr).
  rewrite bind_unfold, Hnr, lift_run.
  rewrite bind_unfold.
  match goal with
  | |- context [refit_loop _ _ _ _ _ ?w0] =>
      destruct (refit_loop_stops var_model user_login sample_size fitted rejects
                  Hsize Hfit Hwhite Hnormal (Z.to_nat (13 - initial_order))
                  initial_order wr nr w0 eq_refl Hverdict)
        as (stop & wr1 & nr1 & w1 & Hrun & Hle & Hbefore & Hstop & Hverdict1 & Hlog)
  end.
  rewrite Hrun. simpl.
  assert (Hwarnings :
            warnings (logging w1)
            = (warnings (logging w)
               ++ map (refit_warning user_login)
                      (seqZ (initial_order + 1) (stop - initial_order)))%list).
  { rewrite Hlog. simpl. rewrite warnings_app. simpl. rewrite app_nil_r. reflexivity. }
  assert (Hcount : length (warnings (logging w1))
                   = (length (warnings (logging w))
                      + Z.to_nat (stop - initial_order))%nat).
  { rewrite Hwarnings, length_app, length_map, length_seqZ. reflexivity. }
  eexists stop, wr1, nr1, _. split; [reflexivity|].
  split; [exact Hle|]. split; [exact Hbefore|]. split; [exact Hstop|].
  split; [exact Hverdict1|]. split; [exact Hwarnings|]. split; [exact Hcount|].
  intros Hall.
  assert (Hmax : stop = Z.max initial_order 13).
  { destruct Hstop as [Hpass|Habove]; [rewrite Hall in Hpass; discriminate Hpass|].
    destruct (Z.eq_dec stop initial_order) as [Heq|Hne]; [lia|].
    destruct (Hbefore (stop - 1)) as [_ Hlast]; lia. }
  split; [exact Hmax|]. etransitivity; [exact Hcount|]. f_equal. lia.
Qed.

Lemma fit_var_model_refits_while_rejected_witness :
  exists stop whiteness_result normality_result w1,
    fit_var_model (Demo.model_for Demo.differenced) "bic" "alice" 30 empty_world
    = (Returned (Demo.results_for Demo.differenced stop, whiteness_result,
                 normality_result, Demo.orders), w1)
    /\ 1 <= stop
    /\ (forall k, 1 <= k < stop -> (k <? 3) = true /\ k <= 12)
    /\ ((stop <? 3) = false \/ 12 < stop)
    /\ String.eqb (conclusion whiteness_result) "reject" = (stop <? 3)
    /\ warnings (logging w1)
       = (warnings (logging empty_world)
          ++ map (refit_warning "alice") (seqZ (1 + 1) (stop - 1)))%list
    /\ length (warnings (logging w1))
       = (length (warnings (logging empty_world)) + Z.to_nat (stop - 1))%nat
    /\ ((forall k, (k <? 3) = true) ->
        stop = Z.max 1 13
        /\ length (warnings (logging w1))
           = (length (warnings (logging empty_world)) + Z.to_nat (13 - 1))%nat).
Proof.
  apply (fit_var_model_refits_while_rejected (Demo.model_for Demo.differenced) "bic"
           "alice" 30 Demo.orders 1 (Demo.results_for Demo.differenced)
           (fun k => k <? 3) empty_world).
  - lia.
  - reflexivity.
  - reflexivity.
  - intros lags. reflexivity.
  - intros lags nlags. eexists. split; [reflexivity|].
    simpl. destruct (lags <? 3); reflexivity.
  - intros lags. eexists. reflexivity.
Defined.

(** ** Dictionaries *)

Lemma dict_get_set_eq {V} (k : string) (v : V) (d : dict.t V) :
  dict.get k (dict.set k v d) = Some v.
Proof.
  induction d as [|[k1 v1] d IH]; simpl.
  - rewrite String.eqb_refl. reflexivity.
  - destruct (String.eqb k1 k) eqn:E; simpl; rewrite E; [reflexivity | exact IH].
Qed.

Lemma dict_get_set_ne {V} (k k1 : string) (v : V) (d : dict.t V) :
  k <> k1 -> dict.get k (dict.set k1 v d) = dict.get k d.
Proof.
  intros Hne. induction d as [|[k2 v2] d IH]; simpl.
  - destruct (String.eqb k1 k) eqn:E; [|reflexivity].
    apply String.eqb_eq in E. congruence.
  - destruct (String.eqb k2 k1) eqn:E1; simpl.
    + apply String.eqb_eq in E1. subst k2.
      destruct (String.eqb k1 k) eqn:E; [|reflexivity].
      apply String.eqb_eq in E. congruence.
    + destruct (String.eqb k2 k); [reflexivity | exact IH].
Qed.

Lemma set_add_returned (key : string) (v : PyVal) (d d1 : dict.t Value) :
  set_add key v d = Returned d1 ->
  exists s, dict.get key d = Some (VSet s) /\ d1 = dict.set key (VSet (s ∪ {[ v ]})) d.
Proof.
  unfold set_add. destruct (dict.get key d) as [[l|s]|]; intros H; try discriminate.
  injection H as <-. exists s. split; reflexivity.
Qed.

Lemma set_add_other (key k : string) (v : PyVal) (d d1 : dict.t Value) :
  set_add key v d = Returned d1 -> k <> key -> dict.get k d1 = dict.get k d.
Proof.
  intros H Hne. apply set_add_returned in H as (s & _ & ->).
  apply dict_get_set_ne. exact Hne.
Qed.

(** ** Permutations *)

Lemma selects_length {A} (l : list A) : length (itertools.selects l) = length l.
Proof.
  induction l as [|x l IH]; simpl; [reflexivity|].
  rewrite length_map, IH. reflexivity.
Qed.

Lemma selects_Permutation {A} (l : list A) (x : A) (rest : list A) :
  In (x, rest) (itertools.selects l) -> Permutation l (x :: rest).
Proof.
  revert x rest. induction l as [|y l IH]; intros x rest Hin; simpl in Hin.
  - contradiction.
  - destruct Hin as [Heq|Hin].
    + injection Heq as -> ->. reflexivity.
    + apply in_map_iff in Hin as ([x1 rest1] & Heq & Hin). simpl in Heq.
      injection Heq as -> <-.
      rewrite (IH _ _ Hin). apply perm_swap.
Qed.

Lemma flat_map_length_const {A B} (f : A -> list B) (c : nat) (l : list A) :
  (forall x, In x l -> length (f x) = c) ->
  length (flat_map f l) = (length l * c)%nat.
Proof.
  induction l as [|x l IH]; intros H; simpl; [reflexivity|].
  rewrite length_app, (H x) by (left; reflexivity).
  rewrite IH by (intros y Hy; apply H; right; exact Hy). reflexivity.
Qed.

Lemma permutations_of_length_length {A} (n : nat) :
  forall l : list A, length l = n ->
    length (itertools.permutations_of_length n l) = fact n.
Proof.
  induction n as [|n IH]; intros l Hlen; simpl; [reflexivity|].
  rewrite (flat_map_length_const _ (fact n)).
  - rewrite selects_length, Hlen. simpl. lia.
  - intros [x rest] Hin. simpl. rewrite length_map. apply IH.
    apply selects_Permutation in Hin. apply Permutation_length in Hin.
    simpl in Hin. lia.
Qed.

Lemma permutations_length {A} (l : list A) :
  length (itertools.permutations l) = fact (length l).
Proof. apply permutations_of_length_length. reflexivity. Qed.

Lemma permutations_of_length_Permutation {A} (n : nat) :
  forall l p : list A, length l = n ->
    In p (itertools.permutations_of_length n l) -> Permutation p l.
Proof.
  induction n as [|n IH]; intros l p Hlen Hin; simpl in Hin.
  - destruct Hin as [<-|[]]. destruct l; [reflexivity | discriminate].
  - apply in_flat_map in Hin as ([x rest] & Hsel & Hin). simpl in Hin.
    apply in_map_iff in Hin as (q & <- & Hq).
    pose proof (selects_Permutation _ _ _ Hsel) as Hperm.
    rewrite Hperm. apply perm_skip. apply IH; [|exact Hq].
    apply Permutation_length in Hperm. simpl in Hperm. lia.
Qed.

Lemma permutations_Permutation {A} (l p : list A) :
  In p (itertools.permutations l) -> Permutation p l.
Proof. apply permutations_of_length_Permutation. reflexivity. Qed.

Lemma enumerate_length {A} (l : list A) : length (enumerate l) = length l.
Proof. unfold enumerate. apply length_imap. Qed.

(** ** What a run leaves in place

    [preserves R m]: every run of [m], returning or raising, takes a world
    to an [R]-related one. *)


Section Preserves.
Variable R : World -> World -> Prop.
Hypothesis R_refl : forall w, R w w.
Hypothesis R_trans : forall w1 w2 w3, R w1 w2 -> R w2 w3 -> R w1 w3.

Lemma preserves_mret {A} (a : A) : preserves R (mret a : M A).
Proof. intros w o w1 H. injection H as _ <-. apply R_refl. Qed.

Lemma preserves_lift {A} (o : outcome A) : preserves R (lift o).
Proof. intros w o1 w1 H. injection H as _ <-. apply R_refl. Qed.

Lemma preserves_raise {A} (e : PyExc) : preserves R (raise e : M A).
Proof. intros w o1 w1 H. injection H as _ <-. apply R_refl. Qed.

Lemma preserves_bind {A B} (m : M A) (k : A -> M B) :
  preserves R m -> (forall a, preserves R (k a)) -> preserves R (m ≫= k).
Proof.
  intros Hm Hk w o w2. rewrite bind_unfold.
  destruct (m w) as [[a|e] w1] eqn:E; intros H.
  - eapply R_trans; [eapply Hm, E | eapply Hk, H].
  - injection H as _ <-. eapply Hm, E.
Qed.

Lemma preserves_if {A} (b : bool) (m1 m2 : M A) :
  preserves R m1 -> preserves R m2 -> preserves R (if b then m1 else m2).
Proof. destruct b; auto. Qed.

Lemma preserves_for_each {X S} (body : X -> S -> M S) (xs : list X) :
  (forall x s, preserves R (body x s)) -> forall s, preserves R (for_each body xs s).
Proof.
  intros Hbody. induction xs as [|x xs IH]; intros s; simpl.
  - apply preserves_mret.
  - apply preserves_bind; [apply Hbody | exact IH].
Qed.

Lemma preserves_try_except {A} (body : M A) (cls : string) (handler : PyExc -> M A) :
  preserves R body -> (forall e, preserves R (handler e)) ->
  preserves R (try_except body cls handler).
Proof.
  intros Hbody Hhandler w o w2. unfold try_except.
  destruct (body w) as [[a|e] w1] eqn:E.
  - intros H. injection H as _ <-. eapply Hbody, E.
  - destruct (isinstance e cls); intros H.
    + eapply R_trans; [eapply Hbody, E | eapply Hhandler, H].
    + injection H as _ <-. eapply Hbody, E.
Qed.
End Preserves.


Lemma string_app_nil_r (s : string) : s ++ "" = s.
Proof. induction s as [|c s IH]; [reflexivity|]. cbv [String.append]. fold String.append. rewrite IH. reflexivity. Qed.

Lemma string_app_assoc (s1 s2 s3 : string) : (s1 ++ s2) ++ s3 = s1 ++ (s2 ++ s3).
Proof.
  induction s1 as [|c s1 IH]; [reflexivity|].
  change (String c ((s1 ++ s2) ++ s3) = String c (s1 ++ (s2 ++ s3))).
  rewrite IH. reflexivity.
Qed.

Lemma files_grow_same (w w1 : World) : files w1 = files w -> files_grow w w1.
Proof.
  intros E path text H. exists text. rewrite E. split; [exact H|].
  intros _. exists "". rewrite string_app_nil_r. reflexivity.
Qed.

Lemma files_grow_refl (w : World) : files_grow w w.
Proof. apply files_grow_same. reflexivity. Qed.

Lemma files_grow_trans (w1 w2 w3 : World) :
  files_grow w1 w2 -> files_grow w2 w3 -> files_grow w1 w3.
Proof.
  intros F12 F23 path text H.
  destruct (F12 path text H) as (t2 & H2 & E2). destruct (F23 path t2 H2) as (t3 & H3 & E3).
  exists t3. split; [exact H3|]. intros Hpath.
  destruct (E2 Hpath) as [s1 ->]. destruct (E3 Hpath) as [s2 ->].
  exists (s1 ++ s2). apply string_app_assoc.
Qed.

Lemma files_grow_is_Some (w w1 : World) (path : string) :
  files_grow w w1 -> is_Some (files w !! path) -> is_Some (files w1 !! path).
Proof. intros F [text H]. destruct (F path text H) as (text1 & H1 & _). eauto. Qed.

Lemma is_figure_app (rest : string) : is_figure (IMAGE_DIRECTORY ++ rest) = true.
Proof. unfold is_figure. apply String.prefix_correct. destruct rest; reflexivity. Qed.

Lemma steady_refl (w : World) : steady w w.
Proof. split; [apply files_grow_refl | reflexivity]. Qed.

Lemma steady_trans (w1 w2 w3 : World) : steady w1 w2 -> steady w2 w3 -> steady w1 w3.
Proof.
  intros [F12 A12] [F23 A23]. split.
  - eapply files_grow_trans; eassumption.
  - congruence.
Qed.

(** Writing at the end of a file keeps what the file held. *)
Lemma files_grow_append (path suffix : string) (w : World) :
  files_grow w (set_content path (content w path ++ suffix) w).
Proof.
  intros p text H. unfold set_content, content. simpl.
  destruct (decide (path = p)) as [->|Hne].
  - rewrite lookup_insert_eq, H. simpl. eauto.
  - rewrite lookup_insert_ne by exact Hne. exists text. split; [exact H|].
    intros _. exists "". rewrite string_app_nil_r. reflexivity.
Qed.

Lemma steady_append (path suffix : string) (w : World) :
  steady w (set_content path (content w path ++ suffix) w).
Proof. split; [apply files_grow_append | reflexivity]. Qed.

Lemma steady_touch (path : string) (w : World) :
  steady w (set_content path (content w path) w).
Proof.
  rewrite <- (string_app_nil_r (content w path)) at 1. apply steady_append.
Qed.

Lemma announced_app (l1 l2 : list Printed) :
  announced (l1 ++ l2) = (announced l1 ++ announced l2)%list.
Proof. apply flat_map_app. Qed.

Lemma print_steady (p : Printed) : announces p = false -> preserves steady (print p).
Proof.
  intros Hp w o w1 H. injection H as _ <-. split; [apply files_grow_same; reflexivity|].
  simpl. rewrite announced_app. destruct p; try discriminate Hp; apply app_nil_r.
Qed.

Lemma log_steady (r : LogRecord) : preserves steady (log r).
Proof.
  intros w o w1 H. injection H as _ <-.
  split; [apply files_grow_same|]; reflexivity.
Qed.

Lemma open_append_steady (open_error : string -> option PyExc) (path : string) :
  preserves steady (open_append open_error path).
Proof.
  intros w o w1. unfold open_append. destruct (open_error path); intros H;
    injection H as _ <-; [apply steady_refl | apply steady_touch].
Qed.

Lemma write_steady (h : FileHandle) (text : string) : preserves steady (write h text).
Proof. intros w o w1 H. injection H as _ <-. apply steady_append. Qed.

(** A figure replaces a file of the image directory. *)
Lemma savefig_steady (env : Env) (path : string) :
  is_figure path = true -> preserves steady (savefig env path).
Proof.
  intros Hfigure w o w1. unfold savefig.
  destruct (savefig_error env path) as [e|]; intros H; injection H as _ <-;
    [apply steady_refl|].
  split; [|reflexivity]. intros p text Hp. simpl.
  destruct (decide (path = p)) as [->|Hne].
  - rewrite lookup_insert_eq. eexists. split; [reflexivity|].
    intros Hno. rewrite Hfigure in Hno. discriminate Hno.
  - rewrite lookup_insert_ne by exact Hne. exists text. split; [exact Hp|].
    intros _. exists "". rewrite string_app_nil_r. reflexivity.
Qed.

Create HintDb frame.
#[local] Hint Resolve log_steady open_append_steady write_steady : frame.

(** Decompose a goal [preserves steady m] along the structure of [m]. *)
Ltac frame :=
  repeat first
    [ solve [auto with frame]
    | apply (preserves_bind steady steady_trans); [|intros ?]
    | apply (preserves_mret steady steady_refl)
    | apply (preserves_lift steady steady_refl)
    | apply (preserves_raise steady steady_refl)
    | apply (preserves_if steady)
    | apply (preserves_for_each steady steady_refl steady_trans); intros ? ?
    | apply (preserves_try_except steady steady_trans); [|intros ?]
    | apply print_steady; reflexivity
    | apply savefig_steady; apply is_figure_app ].

(** ** The report file of a permutation *)


Lemma substring_all (s : string) : String.substring 0 (String.length s) s = s.
Proof. induction s as [|c s IH]; simpl; [reflexivity | rewrite IH; reflexivity]. Qed.

Lemma content_set_content (path text : string) (w : World) :
  content (set_content path text w) path = text.
Proof. unfold content, set_content. simpl. rewrite lookup_insert_eq. reflexivity. Qed.

Lemma files_set_content_ne (path p text : string) (w : World) :
  p <> path -> files (set_content path text w) !! p = files w !! p.
Proof. intros Hne. unfold set_content. simpl. apply lookup_insert_ne. congruence. Qed.

Lemma files_set_content_eq (path text : string) (w : World) :
  files (set_content path text w) !! path = Some text.
Proof. unfold set_content. simpl. apply lookup_insert_eq. Qed.

(** Opening in append mode puts the position at the end, so [truncate]
    cuts nothing: the four summaries land after what the file held. *)
Lemma write_report_run (env : Env) (path : string) (var_order_result : LagOrderResults)
    (training_result : VARResults) (whiteness_result : WhitenessTestResults)
    (normality_result : NormalityTestResults) (w : World) :
  open_error env path = None ->
  exists w1,
    write_report env path var_order_result training_result whiteness_result
                 normality_result w = (Returned tt, w1)
    /\ files w1 !! path
       = Some (content w path
               ++ report_text var_order_result training_result whiteness_result
                              normality_result)
    /\ (forall p, p <> path -> files w1 !! p = files w !! p)
    /\ images w1 = images w /\ stdout w1 = stdout w /\ logging w1 = logging w.
Proof.
  intros Hopen. unfold write_report. rewrite bind_unfold. unfold open_append.
  rewrite Hopen. eexists. split; [reflexivity|].
  cbn [fh_path fh_pos]. unfold truncate, write. cbn [fh_path fh_pos].
  split.
  - rewrite files_set_content_eq. rewrite !content_set_content.
    unfold substring_prefix. rewrite substring_all.
    unfold report_text. rewrite !string_app_assoc. reflexivity.
  - split; [|repeat split].
    intros p Hne. rewrite !files_set_content_ne by exact Hne. reflexivity.
Qed.

Section ScriptFrames.
Variable env : Env.

Lemma get_lags_steady (user_login : string) (sample_size candidate_order : Z) :
  preserves steady (get_lags_for_whiteness_test user_login sample_size candidate_order).
Proof. unfold get_lags_for_whiteness_test. frame. Qed.

Lemma refit_loop_steady (var_model : VARModel) (user_login : string) (sample_size : Z)
    (budget : nat) :
  forall candidate_order fitted,
    Z.to_nat (13 - candidate_order) = budget ->
    preserves steady (refit_loop var_model user_login sample_size candidate_order fitted).
Proof.
  induction budget as [|budget IH]; intros k [[tr wr] nr] Hk; rewrite refit_loop_step.
  - rewrite (proj2 (Z.leb_gt k 12)) by lia. rewrite andb_false_r. frame.
  - apply (preserves_if steady); [|frame].
    frame. apply IH. lia.
Qed.

Lemma fit_var_model_steady (var_model : VARModel) (information_criterion user_login : string)
    (sample_size : Z) :
  preserves steady
    (fit_var_model var_model information_criterion user_login sample_size).
Proof.
  unfold fit_var_model. frame. eapply refit_loop_steady. reflexivity.
Qed.

Lemma check_causality_steady (variables : list string) (training_result : VARResults)
    (user_login : string) (permutation_index : nat) (threshold : float) :
  preserves steady
    (check_causality env variables training_result user_login permutation_index threshold).
Proof. unfold check_causality. frame. Qed.

Lemma structural_analysis_failed_steady (user_login : string) (e : PyExc) :
  preserves steady (structural_analysis_failed env user_login e).
Proof. unfold structural_analysis_failed. frame. Qed.

Lemma do_structural_analysis_steady (variables : list string) (training_result : VARResults)
    (periods : Z) (user_login project calendar_interval : string)
    (permutation_index : nat) :
  preserves steady
    (do_structural_analysis env variables training_result periods user_login project
       calendar_interval permutation_index).
Proof.
  intros w o w3. unfold do_structural_analysis.
  assert (Hhandle : forall (d : dict.t bool) e,
             preserves steady
               (structural_analysis_failed env user_login e;; mret d)).
  { intros d e. frame. }
  destruct (check_causality _ _ _ _ _ _ w) as [[checked|e] w1] eqn:Echeck.
  - match goal with
    | |- context [match ?m w1 with _ => _ end] =>
        assert (Hplots : preserves steady m) by frame;
        destruct (m w1) as [[u|e] w2] eqn:Eplots
    end.
    + intros H. injection H as _ <-.
      eapply steady_trans; [eapply check_causality_steady, Echeck | eapply Hplots, Eplots].
    + rewrite isinstance_Exception. intros H.
      eapply steady_trans; [eapply check_causality_steady, Echeck |].
      eapply steady_trans; [eapply Hplots, Eplots | eapply Hhandle, H].
  - rewrite isinstance_Exception. intros H.
    eapply steady_trans; [eapply check_causality_steady, Echeck | eapply Hhandle, H].
Qed.

Lemma write_report_steady (path : string) (var_order_result : LagOrderResults)
    (training_result : VARResults) (whiteness_result : WhitenessTestResults)
    (normality_result : NormalityTestResults) :
  preserves steady
    (write_report env path var_order_result training_result whiteness_result
       normality_result).
Proof.
  intros w o w1 H. destruct (open_error env path) as [e|] eqn:Hopen.
  - unfold write_report, open_append in H. rewrite bind_unfold, Hopen in H.
    injection H as _ <-. apply steady_refl.
  - destruct (write_report_run env path var_order_result training_result
                whiteness_result normality_result w Hopen)
      as (w2 & Hrun & Hpath & Hother & _ & Hout & _).
    rewrite Hrun in H. injection H as _ <-. split; [|rewrite Hout; reflexivity].
    intros p text Hp. destruct (decide (p = path)) as [->|Hne].
    + unfold content in Hpath. rewrite Hp in Hpath. simpl in Hpath. eauto.
    + exists text. rewrite (Hother p Hne). split; [exact Hp|].
      intros _. exists "". rewrite string_app_nil_r. reflexivity.
Qed.

Lemma record_diagnostics_steady (user_login : string) (training_result : VARResults)
    (whiteness_result : WhitenessTestResults) (normality_result : NormalityTestResults)
    (d : dict.t Value) :
  preserves steady
    (record_diagnostics user_login training_result whiteness_result normality_result d).
Proof. unfold record_diagnostics. frame. Qed.

Lemma accumulate_steady (item : string * bool) (d : dict.t Value) :
  preserves steady (accumulate item d).
Proof. unfold accumulate. frame. Qed.
End ScriptFrames.

#[local] Hint Resolve get_lags_steady fit_var_model_steady check_causality_steady
  structural_analysis_failed_steady do_structural_analysis_steady write_report_steady
  record_diagnostics_steady accumulate_steady : frame.

(** ** Accumulating the verdicts of one permutation *)


Lemma has_arrow_app (x y : string) : has_arrow (x ++ "->" ++ y) = true.
Proof.
  induction x as [|c x IH].
  - destruct y; vm_compute; reflexivity.
  - change (String c x ++ "->" ++ y) with (String c (x ++ "->" ++ y)).
    cbn [has_arrow]. rewrite IH. apply orb_true_r.
Qed.

Lemma arrow_key_not_fixed (x y : string) : x ++ "->" ++ y ∉ fixed_keys.
Proof.
  intros Hin. pose proof (has_arrow_app x y) as Harrow.
  unfold fixed_keys in Hin.
  repeat (apply elem_of_cons in Hin as [Hin|Hin];
          [rewrite Hin in Harrow; vm_compute in Harrow; discriminate Harrow|]).
  apply elem_of_nil in Hin. exact Hin.
Qed.

Lemma accumulate_returned (item : string * bool) (d d1 : dict.t Value) (w w1 : World) :
  accumulate item d w = (Returned d1, w1) ->
  w1 = w /\
  forall k, dict.get k d1
            = if String.eqb (fst item) k
              then Some (VSet (set_of (dict.get k d) ∪ {[ VBool (snd item) ]}))
              else dict.get k d.
Proof.
  destruct item as [test result]. unfold accumulate, dict.contains. cbn [fst snd].
  destruct (dict.get test d) as [v|] eqn:E; intros H;
    apply lift_returned_inv in H as [H ->]; (split; [reflexivity|]);
    apply set_add_returned in H as (s & Hs & ->); intros k;
    destruct (String.eqb test k) eqn:Ek.
  - apply String.eqb_eq in Ek. subst k. rewrite dict_get_set_eq, Hs. reflexivity.
  - apply String.eqb_neq in Ek. apply dict_get_set_ne. congruence.
  - apply String.eqb_eq in Ek. subst k. rewrite dict_get_set_eq in Hs.
    injection Hs as <-. rewrite dict_get_set_eq, E. reflexivity.
  - apply String.eqb_neq in Ek.
    rewrite !dict_get_set_ne by congruence. reflexivity.
Qed.

Lemma verdicts_for_cons (k : string) (item : string * bool) (items : dict.t bool) :
  verdicts_for k (item :: items)
  = if String.eqb (fst item) k then VBool (snd item) :: verdicts_for k items
    else verdicts_for k items.
Proof. unfold verdicts_for, dict.items. simpl. destruct (String.eqb (fst item) k); reflexivity. Qed.

Lemma accumulate_all_returned (items : dict.t bool) :
  forall (d d1 : dict.t Value) (w w1 : World),
    for_each accumulate (dict.items items) d w = (Returned d1, w1) ->
    w1 = w /\
    forall k, dict.get k d1
              = match verdicts_for k items with
                | [] => dict.get k d
                | vs => Some (VSet (set_of (dict.get k d) ∪ list_to_set vs))
                end.
Proof.
  unfold dict.items. induction items as [|item items IH]; intros d d1 w w1 H.
  - apply mret_returned_inv in H as [-> ->]. split; reflexivity.
  - simpl in H. apply bind_returned_inv in H as (d0 & w0 & Hitem & Hrest).
    apply accumulate_returned in Hitem as [-> Hitem].
    apply IH in Hrest as [-> Hrest]. split; [reflexivity|].
    intros k. rewrite Hrest, Hitem, verdicts_for_cons.
    destruct (String.eqb (fst item) k); [|reflexivity].
    destruct (verdicts_for k items) as [|v vs]; simpl; do 2 f_equal;
      apply leibniz_equiv; clear; set_solver.
Qed.

Lemma set_of_aggregated (k : string) (results : list PermutationResult) :
  set_of (aggregated k results) = observed k results.
Proof.
  unfold aggregated, observed.
  destruct (flat_map _ results); reflexivity.
Qed.

Lemma aggregated_snoc (k : string) (results : list PermutationResult)
    (r : PermutationResult) :
  aggregated k (results ++ [r])
  = match verdicts_for k (pr_causality r) with
    | [] => aggregated k results
    | vs => Some (VSet (set_of (aggregated k results) ∪ list_to_set vs))
    end.
Proof.
  rewrite set_of_aggregated. unfold aggregated, observed.
  rewrite flat_map_app. simpl. rewrite app_nil_r.
  destruct (verdicts_for k (pr_causality r)) as [|v vs].
  - rewrite app_nil_r. reflexivity.
  - destruct (flat_map _ results) as [|v0 vs0]; simpl; do 2 f_equal;
      apply leibniz_equiv; rewrite ?list_to_set_app; clear; set_solver.
Qed.

Lemma dict_get_verdicts (k : string) (b : bool) (d : dict.t bool) :
  dict.get k d = Some b -> VBool b ∈ verdicts_for k d.
Proof.
  induction d as [|[k1 v] d IH]; simpl; [discriminate|].
  rewrite verdicts_for_cons. cbn [fst snd].
  destruct (String.eqb k1 k); intros H.
  - injection H as ->. apply elem_of_cons. left. reflexivity.
  - apply IH, H.
Qed.

(** ** One iteration of the permutation loop *)

Section Iteration.
Variable env : Env.

Lemma write_report_returned (path : string) (var_order_result : LagOrderResults)
    (training_result : VARResults) (whiteness_result : WhitenessTestResults)
    (normality_result : NormalityTestResults) (w w1 : World) (u : unit) :
  write_report env path var_order_result training_result whiteness_result
               normality_result w = (Returned u, w1) ->
  is_Some (files w1 !! path).
Proof.
  unfold write_report. rewrite bind_unfold. unfold open_append.
  destruct (open_error env path) as [e|]; [discriminate|].
  intros H. injection H as _ <-. simpl. rewrite lookup_insert_eq. eauto.
Qed.

Lemma record_diagnostics_other (user_login : string) (training_result : VARResults)
    (whiteness_result : WhitenessTestResults) (normality_result : NormalityTestResults)
    (d d1 : dict.t Value) (w w1 : World) :
  record_diagnostics user_login training_result whiteness_result normality_result d w
  = (Returned d1, w1) ->
  forall k, k ∉ fixed_keys -> dict.get k d1 = dict.get k d.
Proof.
  unfold record_diagnostics. intros H k Hk.
  assert (Hne : k <> var_order_key /\ k <> serial_correlation_key
                /\ k <> residual_white_noise_key).
  { unfold fixed_keys in Hk. repeat split; intros ->; apply Hk;
      repeat first [apply list_elem_of_here | apply list_elem_of_further]. }
  destruct Hne as (Hvar & Hserial & Hresidual).
  apply bind_returned_inv in H as (d2 & w2 & H2 & H).
  apply lift_returned_inv in H2 as [H2 ->].
  apply bind_returned_inv in H as (d3 & w3 & H3 & H).
  assert (Hd3 : dict.get k d3 = dict.get k d2).
  { destruct (String.eqb (conclusion whiteness_result) "reject").
    - apply bind_returned_inv in H3 as (u & w4 & _ & H3).
      apply lift_returned_inv in H3 as [H3 _]. eapply set_add_other; eassumption.
    - apply lift_returned_inv in H3 as [H3 _]. eapply set_add_other; eassumption. }
  assert (Hd1 : dict.get k d1 = dict.get k d3).
  { destruct (String.eqb (conclusion normality_result) "reject").
    - apply bind_returned_inv in H as (u & w4 & _ & H).
      apply lift_returned_inv in H as [H _]. eapply set_add_other; eassumption.
    - apply lift_returned_inv in H as [H _]. eapply set_add_other; eassumption. }
  rewrite Hd1, Hd3. eapply set_add_other; eassumption.
Qed.
End Iteration.

(** What one iteration that returns has done: it selected the columns of
    the permutation from its source table, announced the permutation, left
    a report file, and added one permutation result whose causality
    verdicts went into [result_analysis]. *)
Lemma permutation_step_returned (env : Env) (user_login : string)
    (variables : list string) (project calendar_interval information_criterion : string)
    (periods : Z) (train_sample_size : nat) (source : DataFrame)
    (item : nat * list string) (st st1 : LoopState) (w w1 : World) :
  permutation_step env user_login variables project calendar_interval
    information_criterion periods train_sample_size source item st w
  = (Returned st1, w1) ->
  exists r,
    pd.getitem_list source (snd item) = Returned (train_dataset st1) /\
    permutation_results st1 = (permutation_results st ++ [r])%list /\
    pr_index r = fst item /\ pr_permutation r = snd item /\
    pr_report r = report_path user_login (fst item) /\
    is_Some (files w1 !! pr_report r) /\
    files_grow w w1 /\
    announced (stdout w1) = (announced (stdout w) ++ [item])%list /\
    forall k, k ∉ fixed_keys ->
      dict.get k (result_analysis st1)
      = match verdicts_for k (pr_causality r) with
        | [] => dict.get k (result_analysis st)
        | vs => Some (VSet (set_of (dict.get k (result_analysis st)) ∪ list_to_set vs))
        end.
Proof.
  destruct item as [permutation_index permutation].
  unfold permutation_step. cbn [fst snd]. intros H.
  apply bind_returned_inv in H as (u0 & w0 & Hprint & H).
  unfold print in Hprint. injection Hprint as _ <-.
  apply bind_returned_inv in H as (selected & w2 & Hsel & H).
  apply lift_returned_inv in Hsel as [Hsel ->].
  apply bind_returned_inv in H as (var_model & w2 & Hvar & H).
  apply lift_returned_inv in Hvar as [Hvar ->].
  apply bind_returned_inv in H as (fitted & w3 & Hfit & H).
  apply fit_var_model_steady in Hfit as [Ffit Afit].
  apply bind_returned_inv in H as (u & w4 & Hreport & H).
  pose proof (write_report_returned _ _ _ _ _ _ _ _ _ Hreport) as Hfile.
  apply write_report_steady in Hreport as [Freport Areport].
  apply bind_returned_inv in H as (ra & w5 & Hdiag & H).
  pose proof (record_diagnostics_other _ _ _ _ _ _ _ _ Hdiag) as Hother.
  apply record_diagnostics_steady in Hdiag as [Fdiag Adiag].
  apply bind_returned_inv in H as (causality_results & w6 & Hstruct & H).
  apply do_structural_analysis_steady in Hstruct as [Fstruct Astruct].
  apply bind_returned_inv in H as (ra1 & w7 & Hacc & H).
  apply accumulate_all_returned in Hacc as [-> Hacc].
  apply mret_returned_inv in H as [-> ->].
  eexists. cbn [train_dataset permutation_results result_analysis].
  split; [exact Hsel|]. split; [reflexivity|].
  cbn [pr_index pr_permutation pr_report pr_causality].
  repeat (split; [reflexivity|]).
  split; [eapply files_grow_is_Some; [exact Fstruct|];
          eapply files_grow_is_Some; [exact Fdiag | exact Hfile]|].
  split; [eapply files_grow_trans; [|exact Fstruct];
          eapply files_grow_trans; [|exact Fdiag];
          eapply files_grow_trans; [|exact Freport];
          eapply files_grow_trans; [|exact Ffit];
          apply files_grow_same; reflexivity|].
  split.
  - rewrite Astruct, Adiag, Areport, Afit. simpl. apply announced_app.
  - intros k Hk. rewrite Hacc, (Hother k Hk). reflexivity.
Qed.

(** ** The permutation loop *)


Section Loop.
Variables (env : Env) (user_login : string) (variables : list string)
          (project calendar_interval information_criterion : string)
          (periods : Z) (train_sample_size : nat).

Let body := permutation_body env user_login variables project calendar_interval
              information_criterion periods train_sample_size.


Lemma permutation_loop_returned (items : list (nat * list string)) :
  forall (st st1 : LoopState) (w w1 : World),
    for_each body items st w = (Returned st1, w1) ->
    exists added,
      permutation_results st1 = (permutation_results st ++ added)%list /\
      map labelled added = items /\
      Forall (reported user_login w1) added /\
      files_grow w w1 /\
      announced (stdout w1) = (announced (stdout w) ++ items)%list /\
      ((forall k, k ∉ fixed_keys ->
          dict.get k (result_analysis st) = aggregated k (permutation_results st)) ->
       forall k, k ∉ fixed_keys ->
          dict.get k (result_analysis st1) = aggregated k (permutation_results st1)).
Proof.
  induction items as [|item items IH]; intros st st1 w w1 H.
  - apply mret_returned_inv in H as [-> ->]. exists [].
    rewrite !app_nil_r. repeat split; auto. apply files_grow_refl.
  - cbn [for_each] in H. apply bind_returned_inv in H as (st0 & w0 & Hstep & Hrest).
    unfold body, permutation_body in Hstep.
    destruct (permutation_step_returned _ _ _ _ _ _ _ _ _ _ _ _ _ _ Hstep)
      as (r & _ & Hresults & Hindex & Hperm & Hreport & Hfile & Hgrow & Hout & Hkeys).
    apply IH in Hrest as (added & Hadded & Hlabels & Hreported & Hgrow1 & Hout1 & Hinv).
    exists (r :: added). split; [rewrite Hadded, Hresults, <- app_assoc; reflexivity|].
    split; [simpl; rewrite Hlabels; unfold labelled; rewrite Hindex, Hperm;
            destruct item; reflexivity|].
    split; [constructor;
            [split; [congruence | eapply files_grow_is_Some; [exact Hgrow1 | exact Hfile]]
            | exact Hreported]|].
    split; [eapply files_grow_trans; eassumption|].
    split; [rewrite Hout1, Hout, <- app_assoc; reflexivity|].
    intros Hst. apply Hinv. intros k Hk.
    rewrite Hresults, aggregated_snoc, (Hkeys k Hk), (Hst k Hk). reflexivity.
Qed.
End Loop.

Lemma enumerate_labels {A} (l : list A) :
  map fst (enumerate l) = seq 0 (length l) /\ map snd (enumerate l) = l.
Proof.
  unfold enumerate. split.
  - change (map fst (imap (fun i x => (i, x)) l)) with (fst <$> imap (fun i x => (i, x)) l).
    rewrite fmap_imap. rewrite (imap_ext _ (fun j _ => id j)) by reflexivity.
    rewrite imap_seq_0. apply list_fmap_id.
  - change (map snd (imap (fun i x => (i, x)) l)) with (snd <$> imap (fun i x => (i, x)) l).
    rewrite fmap_imap. rewrite (imap_ext _ (const id)) by reflexivity.
    rewrite imap_const. apply list_fmap_id.
Qed.

Lemma initial_analysis_arrow_free (train_sample_size : nat) (k : string) :
  k ∉ fixed_keys -> dict.get k (initial_analysis train_sample_size) = None.
Proof.
  intros Hk. unfold initial_analysis. cbn [dict.get].
  repeat match goal with
         | |- context [String.eqb ?a k] =>
             destruct (String.eqb a k) eqn:E;
             [apply String.eqb_eq in E; subst k; exfalso; apply Hk; unfold fixed_keys;
              repeat first [apply list_elem_of_here | apply list_elem_of_further]
             | clear E]
         end.
  reflexivity.
Qed.

Section TrainVarModel.
Variables (env : Env) (consolidated_dataframe : DataFrame) (user_login : string)
          (variables : list string)
          (project calendar_interval information_criterion : string) (periods : Z).

Lemma train_var_model_returned (result : dict.t Value) (w w1 : World) :
  train_var_model env consolidated_dataframe user_login variables project
    calendar_interval information_criterion periods w = (Returned result, w1) ->
  exists st,
    train_var_model_loop env consolidated_dataframe user_login variables project
      calendar_interval information_criterion periods w = (Returned st, w1)
    /\ result = result_analysis st.
Proof.
  unfold train_var_model. intros H.
  apply bind_returned_inv in H as (st & w0 & Hloop & H).
  apply mret_returned_inv in H as [-> ->]. exists st. split; [exact Hloop | reflexivity].
Qed.

Lemma train_var_model_of_loop (st : LoopState) (w w1 : World) :
  train_var_model_loop env consolidated_dataframe user_login variables project
    calendar_interval information_criterion periods w = (Returned st, w1) ->
  train_var_model env consolidated_dataframe user_login variables project
    calendar_interval information_criterion periods w
  = (Returned (result_analysis st), w1).
Proof. intros H. unfold train_var_model. rewrite bind_unfold, H. reflexivity. Qed.

Lemma train_var_model_loop_returned (st : LoopState) (w w1 : World) :
  train_var_model_loop env consolidated_dataframe user_login variables project
    calendar_interval information_criterion periods w = (Returned st, w1) ->
  map labelled (permutation_results st) = enumerate (itertools.permutations variables)
  /\ Forall (reported user_login w1) (permutation_results st)
  /\ files_grow w w1
  /\ announced (stdout w1)
     = (announced (stdout w) ++ enumerate (itertools.permutations variables))%list
  /\ forall k, k ∉ fixed_keys ->
       dict.get k (result_analysis st) = aggregated k (permutation_results st).
Proof.
  unfold train_var_model_loop. intros H.
  apply bind_returned_inv in H as (u & w0 & Hprint & H).
  apply print_steady in Hprint as [Fprint Aprint]; [|reflexivity].
  apply permutation_loop_returned in H
    as (added & Hadded & Hlabels & Hreported & Hgrow & Hout & Hinv).
  cbn [permutation_results result_analysis] in Hadded, Hinv. simpl in Hadded. subst added.
  split; [exact Hlabels|]. split; [exact Hreported|].
  split; [eapply files_grow_trans; eassumption|].
  split; [rewrite Hout, Aprint; reflexivity|].
  apply Hinv. intros k Hk. apply initial_analysis_arrow_free, Hk.
Qed.
End TrainVarModel.

(** ** One permutation result per permutation *)

(** X1: a run of [train_var_model] that returns has gone through the
    [N!] permutations of its [N] variables, in the order of
    [itertools.permutations] and numbered from 0: it announced each of them
    on the output, and produced for each one permutation result, whose
    report file is in place.  For three variables that makes six. *)
Theorem train_var_model_one_result_per_permutation
    (env : Env) (consolidated_dataframe : DataFrame) (user_login : string)
    (variables : list string) (project calendar_interval information_criterion : string)
    (periods : Z) (result : dict.t Value) (w w1 : World) :
  train_var_model env consolidated_dataframe user_login variables project
    calendar_interval information_criterion periods w = (Returned result, w1) ->
  exists st,
    train_var_model_loop env consolidated_dataframe user_login variables project
      calendar_interval information_criterion periods w = (Returned st, w1)
    /\ result = result_analysis st
    /\ length (itertools.permutations variables) = fact (length variables)
    /\ length (permutation_results st) = fact (length variables)
    /\ map pr_permutation (permutation_results st) = itertools.permutations variables
    /\ map pr_index (permutation_results st) = seq 0 (fact (length variables))
    /\ Forall (reported user_login w1) (permutation_results st)
    /\ announced (stdout w1)
       = (announced (stdout w) ++ enumerate (itertools.permutations variables))%list
    /\ (length variables = 3%nat -> length (permutation_results st) = 6%nat).
Proof.
  intros H. apply train_var_model_returned in H as (st & Hloop & ->).
  exists st. split; [exact Hloop|]. split; [reflexivity|].
  apply train_var_model_loop_returned in Hloop as (Hlabels & Hreported & _ & Hout & _).
  pose proof (enumerate_labels (itertools.permutations variables)) as [Hfst Hsnd].
  pose proof (permutations_length variables) as Hfact.
  assert (Hperm : map pr_permutation (permutation_results st)
                  = itertools.permutations variables).
  { rewrite <- Hsnd, <- Hlabels, map_map. reflexivity. }
  assert (Hlen : length (permutation_results st) = fact (length variables)).
  { rewrite <- Hfact, <- Hperm, length_map. reflexivity. }
  split; [exact Hfact|]. split; [exact Hlen|]. split; [exact Hperm|].
  split; [rewrite <- Hfact, <- Hfst, <- Hlabels, map_map; reflexivity|].
  split; [exact Hreported|]. split; [exact Hout|].
  intros H3. rewrite Hlen, H3. reflexivity.
Qed.

Lemma train_var_model_one_result_per_permutation_witness :
  exists st,
    length (permutation_results st) = 6%nat
    /\ map pr_permutation (permutation_results st)
       = itertools.permutations Demo.variables.
Proof.
  pose (run := train_var_model Demo.env Demo.differenced "alice" Demo.variables
                 "demo" "month" "bic" 24 empty_world).
  destruct (train_var_model_one_result_per_permutation Demo.env Demo.differenced
              "alice" Demo.variables "demo" "month" "bic" 24
              (match fst run with Returned r => r | Raised _ => [] end) empty_world
              (snd run))
    as (st & _ & _ & _ & _ & Hperm & _ & _ & _ & Hsix).
  - apply (returned_run _ []). vm_compute. reflexivity.
  - exists st. split; [apply Hsix; reflexivity | exact Hperm].
Defined.

(** ** The verdicts under a causality key *)

Lemma elem_of_observed (key : string) (results : list PermutationResult) (v : PyVal) :
  v ∈ observed key results
  <-> exists r, r ∈ results /\ v ∈ verdicts_for key (pr_causality r).
Proof.
  unfold observed. rewrite elem_of_list_to_set, list_elem_of_In, in_flat_map.
  split; intros (r & Hr & Hv); exists r;
    [rewrite !list_elem_of_In | rewrite <- !list_elem_of_In]; auto.
Qed.

Lemma aggregated_reported (key : string) (results : list PermutationResult)
    (r : PermutationResult) (v : PyVal) :
  r ∈ results -> v ∈ verdicts_for key (pr_causality r) ->
  aggregated key results = Some (VSet (observed key results)).
Proof.
  intros Hr Hv. unfold aggregated.
  destruct (flat_map _ results) as [|v0 vs] eqn:E; [|reflexivity].
  exfalso. apply list_elem_of_In in Hr, Hv.
  assert (Hin : In v (flat_map (fun r => verdicts_for key (pr_causality r)) results)).
  { apply in_flat_map. exists r. split; assumption. }
  rewrite E in Hin. exact Hin.
Qed.

(** X2: when [train_var_model] returns, the entry of its result under a
    causality key [X->Y] is the set of the verdicts that the permutations
    reported for that key (and there is no entry when none reported it): a
    verdict is in the set exactly when some permutation reported it.  In
    particular, when one permutation reported the pair as causal and another
    as not causal, the set holds both [True] and [False]. *)
Theorem train_var_model_collects_verdicts
    (env : Env) (consolidated_dataframe : DataFrame) (user_login : string)
    (variables : list string) (project calendar_interval information_criterion : string)
    (periods : Z) (result : dict.t Value) (w w1 : World) :
  train_var_model env consolidated_dataframe user_login variables project
    calendar_interval information_criterion periods w = (Returned result, w1) ->
  exists st,
    train_var_model_loop env consolidated_dataframe user_login variables project
      calendar_interval information_criterion periods w = (Returned st, w1)
    /\ result = result_analysis st
    /\ forall x y : string,
         dict.get (x ++ "->" ++ y) result
         = aggregated (x ++ "->" ++ y) (permutation_results st)
         /\ (forall v, v ∈ observed (x ++ "->" ++ y) (permutation_results st)
                       <-> exists r, r ∈ permutation_results st
                                     /\ v ∈ verdicts_for (x ++ "->" ++ y) (pr_causality r))
         /\ (forall r1 r2,
               r1 ∈ permutation_results st -> r2 ∈ permutation_results st ->
               dict.get (x ++ "->" ++ y) (pr_causality r1) = Some true ->
               dict.get (x ++ "->" ++ y) (pr_causality r2) = Some false ->
               exists s, dict.get (x ++ "->" ++ y) result = Some (VSet s)
                         /\ VBool true ∈ s /\ VBool false ∈ s).
Proof.
  intros H. apply train_var_model_returned in H as (st & Hloop & ->).
  exists st. split; [exact Hloop|]. split; [reflexivity|].
  apply train_var_model_loop_returned in Hloop as (_ & _ & _ & _ & Hkeys).
  intros x y. pose proof (Hkeys _ (arrow_key_not_fixed x y)) as Hkey.
  split; [exact Hkey|]. split; [apply elem_of_observed|].
  intros r1 r2 Hr1 Hr2 Htrue Hfalse.
  apply dict_get_verdicts in Htrue, Hfalse.
  exists (observed (x ++ "->" ++ y) (permutation_results st)).
  split; [rewrite Hkey; eapply aggregated_reported; eassumption|].
  split; apply elem_of_observed; eauto.
Qed.

Lemma train_var_model_collects_verdicts_witness :
  exists st s,
    dict.get ("merges_performed" ++ "->" ++ "merges_requested") (result_analysis st)
    = Some (VSet s)
    /\ VBool true ∈ s /\ VBool false ∈ s.
Proof.
  pose (run := train_var_model_loop Demo.env Demo.differenced "alice" Demo.variables
                 "demo" "month" "bic" 24 empty_world).
  pose (final := match fst run with
                 | Returned st => st
                 | Raised _ => mkLoop Demo.differenced [] []
                 end).
  destruct (train_var_model_collects_verdicts Demo.env Demo.differenced
              "alice" Demo.variables "demo" "month" "bic" 24
              (result_analysis final) empty_world (snd run))
    as (st & Hloop & Hresult & Hkeys).
  - apply train_var_model_of_loop.
    apply (returned_run _ (mkLoop Demo.differenced [] [])). vm_compute. reflexivity.
  - assert (Hrun : train_var_model_loop Demo.env Demo.differenced "alice"
                     Demo.variables "demo" "month" "bic" 24 empty_world
                   = (Returned final, snd run))
      by (apply (returned_run _ (mkLoop Demo.differenced [] [])); vm_compute;
          reflexivity).
    pose proof (returned_inj _ _ _ _ (eq_trans (eq_sym Hloop) Hrun)) as Hst.
    subst st.
    destruct (Hkeys "merges_performed" "merges_requested") as (_ & _ & Hboth).
    destruct (Hboth (default (mkPermutationResult 0 [] "" 0 false false [])
                             (permutation_results final !! 0%nat))
                    (default (mkPermutationResult 0 [] "" 0 false false [])
                             (permutation_results final !! 2%nat)))
      as (s & Hget & Htrue & Hfalse).
    + apply (list_elem_of_lookup_2 _ 0%nat), lookup_default. vm_compute. reflexivity.
    + apply (list_elem_of_lookup_2 _ 2%nat), lookup_default. vm_compute. reflexivity.
    + vm_compute. reflexivity.
    + vm_compute. reflexivity.
    + exists final, s. repeat split; assumption.
Defined.

(** ** [do_structural_analysis] swallows every failure *)

(** X3: [do_structural_analysis] returns on every input, whatever fails
    inside it.  It returns the dictionary of [check_causality] when that
    call returned (also when the impulse responses or the plots failed
    afterwards); when [check_causality] itself raised, it returns the empty
    dictionary, so that the verdicts of the pairs tested before the failure
    are lost, and the failure is logged twice. *)
Theorem do_structural_analysis_never_raises
    (env : Env) (variables : list string) (training_result : VARResults) (periods : Z)
    (user_login project calendar_interval : string) (permutation_index : nat)
    (w : World) :
  exists causality_results w1,
    do_structural_analysis env variables training_result periods user_login project
      calendar_interval permutation_index w = (Returned causality_results, w1)
    /\ match check_causality env variables training_result user_login
               permutation_index default_threshold w with
       | (Returned checked, _) => causality_results = checked
       | (Raised e, w0) =>
           causality_results = []
           /\ w1 = mkWorld (files w0) (images w0) (stdout w0)
                     (logging w0
                        ++ [LogError (format_exc env e);
                            LogError ("Cannot do structural analysis for user "
                                        ++ user_login)])
       end.
Proof.
  unfold do_structural_analysis.
  destruct (check_causality _ _ _ _ _ _ w) as [[checked|e] w0].
  - match goal with
    | |- context [match ?m w0 with _ => _ end] => destruct (m w0) as [[u|e] w2]
    end.
    + eexists _, _. split; reflexivity.
    + rewrite isinstance_Exception. eexists _, _. split; reflexivity.
  - rewrite isinstance_Exception. eexists _, _. split; [reflexivity|].
    split; [reflexivity|]. simpl. rewrite <- app_assoc. reflexivity.
Qed.

(** ** Files are only ever extended *)

Lemma steady_files_grow {A} (m : M A) : preserves steady m -> preserves files_grow m.
Proof. intros H w o w1 Hrun. apply (H w o w1 Hrun). Qed.

Lemma permutation_step_keeps_files (env : Env) (user_login : string)
    (variables : list string) (project calendar_interval information_criterion : string)
    (periods : Z) (train_sample_size : nat) (source : DataFrame)
    (item : nat * list string) (st : LoopState) :
  preserves files_grow
    (permutation_step env user_login variables project calendar_interval
       information_criterion periods train_sample_size source item st).
Proof.
  unfold permutation_step.
  apply (preserves_bind files_grow files_grow_trans).
  - intros w o w1 H. injection H as _ <-. apply files_grow_same. reflexivity.
  - intros u. apply steady_files_grow. frame.
Qed.

(** X4: whether it returns or raises, [train_var_model] removes no file,
    and outside the image directory it cuts none: a file that was there
    before the call is there after it, and unless it lies in the image
    directory, where the figures of an earlier run are replaced, what it
    held is at the head of what it holds now.  The reports of an earlier
    run are therefore never replaced, only extended. *)
Theorem train_var_model_keeps_files
    (env : Env) (consolidated_dataframe : DataFrame) (user_login : string)
    (variables : list string) (project calendar_interval information_criterion : string)
    (periods : Z) (w w1 : World) (o : outcome (dict.t Value)) (path text : string) :
  train_var_model env consolidated_dataframe user_login variables project
    calendar_interval information_criterion periods w = (o, w1) ->
  files w !! path = Some text ->
  exists text1,
    files w1 !! path = Some text1
    /\ (is_figure path = false -> exists suffix, text1 = text ++ suffix).
Proof.
  intros Hrun. revert path text. change (files_grow w w1). revert w o w1 Hrun.
  change (preserves files_grow
            (train_var_model env consolidated_dataframe user_login variables project
               calendar_interval information_criterion periods)).
  unfold train_var_model, train_var_model_loop.
  apply (preserves_bind files_grow files_grow_trans);
    [|intros st; apply (preserves_mret files_grow files_grow_refl)].
  apply (preserves_bind files_grow files_grow_trans).
  - apply steady_files_grow. frame.
  - intros u. apply (preserves_for_each files_grow files_grow_refl files_grow_trans).
    intros item st. unfold permutation_body. apply permutation_step_keeps_files.
Qed.

Lemma train_var_model_keeps_files_witness :
  exists text1,
    files (snd (train_var_model Demo.env Demo.differenced "alice" Demo.variables "demo"
                  "month" "bic" 24 Demo.after_earlier_run))
      !! report_path "alice" 0
    = Some text1
    /\ (is_figure (report_path "alice" 0) = false ->
        exists suffix, text1 = Demo.stale ++ suffix).
Proof.
  pose (run := train_var_model Demo.env Demo.differenced "alice" Demo.variables "demo"
                 "month" "bic" 24 Demo.after_earlier_run).
  apply (train_var_model_keeps_files Demo.env Demo.differenced "alice" Demo.variables
           "demo" "month" "bic" 24 Demo.after_earlier_run (snd run) (fst run)
           (report_path "alice" 0) Demo.stale).
  - apply surjective_pairing.
  - vm_compute. reflexivity.
Defined.

(** ** Selecting columns by label, twice *)

Lemma matching_matching (l l' : string) (cols : list (string * Series)) :
  pd.matching l (pd.matching l' cols)
  = if String.eqb l' l then pd.matching l cols else [].
Proof.
  unfold pd.matching. induction cols as [|c cols IH]; simpl.
  - destruct (String.eqb l' l); reflexivity.
  - destruct (String.eqb (fst c) l') eqn:E1; simpl; rewrite IH.
    + apply String.eqb_eq in E1. rewrite E1.
      destruct (String.eqb l' l); reflexivity.
    + destruct (String.eqb l' l) eqn:E2; [|reflexivity].
      apply String.eqb_eq in E2. subst l'. rewrite E1. reflexivity.
Qed.

Lemma matching_select_notin (l : string) (p : list string) (cols : list (string * Series)) :
  ~ In l p -> pd.matching l (flat_map (fun l' => pd.matching l' cols) p) = [].
Proof.
  induction p as [|l' p IH]; intros Hnotin; simpl; [reflexivity|].
  unfold pd.matching at 1. rewrite List.filter_app.
  fold (pd.matching l (pd.matching l' cols)).
  fold (pd.matching l (flat_map (fun l' => pd.matching l' cols) p)).
  rewrite matching_matching, IH by (intros Hin; apply Hnotin; right; exact Hin).
  destruct (String.eqb l' l) eqn:E; [|reflexivity].
  apply String.eqb_eq in E. exfalso. apply Hnotin. left. exact E.
Qed.

(** In a selection by distinct labels, a selected label finds the columns
    it finds in the table selected from. *)
Lemma matching_select (l : string) (p : list string) (cols : list (string * Series)) :
  NoDup p -> In l p ->
  pd.matching l (flat_map (fun l' => pd.matching l' cols) p) = pd.matching l cols.
Proof.
  induction p as [|l' p IH]; intros Hnodup Hin; [destruct Hin|].
  apply NoDup_cons in Hnodup as [Hnotin Hnodup]. rewrite list_elem_of_In in Hnotin.
  simpl.
  unfold pd.matching at 1. rewrite List.filter_app.
  fold (pd.matching l (pd.matching l' cols)).
  fold (pd.matching l (flat_map (fun l' => pd.matching l' cols) p)).
  rewrite matching_matching.
  destruct (String.eqb l' l) eqn:E.
  - apply String.eqb_eq in E. subst l'.
    rewrite matching_select_notin by exact Hnotin. apply app_nil_r.
  - apply String.eqb_neq in E. destruct Hin as [Hin|Hin]; [congruence|].
    simpl. apply IH; assumption.
Qed.

Lemma find_ext_on {A} (f g : A -> bool) (l : list A) :
  (forall x, In x l -> f x = g x) -> List.find f l = List.find g l.
Proof.
  induction l as [|x l IH]; intros H; simpl; [reflexivity|].
  rewrite (H x (or_introl eq_refl)), IH; [reflexivity|].
  intros y Hy. apply H. right. exact Hy.
Qed.

Lemma flat_map_ext_on {A B} (f g : A -> list B) (l : list A) :
  (forall x, In x l -> f x = g x) -> flat_map f l = flat_map g l.
Proof.
  induction l as [|x l IH]; intros H; simpl; [reflexivity|].
  rewrite (H x (or_introl eq_refl)), IH; [reflexivity|].
  intros y Hy. apply H. right. exact Hy.
Qed.

(** Selecting from a selection is selecting from the table, as long as the
    first selection took distinct labels and the second asks for some of
    them. *)
Lemma getitem_list_select (full selected : DataFrame) (p q : list string) :
  pd.getitem_list full p = Returned selected ->
  NoDup p -> (forall l, In l q -> In l p) ->
  pd.getitem_list selected q = pd.getitem_list full q.
Proof.
  unfold pd.getitem_list. intros Hsel Hnodup Hincl.
  destruct (List.find _ p); [discriminate|]. injection Hsel as <-. cbn [columns index].
  assert (Hm : forall l, In l q ->
                 pd.matching l (flat_map (fun l' => pd.matching l' (columns full)) p)
                 = pd.matching l (columns full)).
  { intros l Hl. apply matching_select; [exact Hnodup | apply Hincl, Hl]. }
  rewrite (find_ext_on _ (fun l => bool_decide (pd.matching l (columns full) = [])) q).
  - destruct (List.find _ q); [reflexivity|].
    rewrite (flat_map_ext_on _ (fun l => pd.matching l (columns full)) q Hm). reflexivity.
  - intros l Hl. rewrite (Hm l Hl). reflexivity.
Qed.

(** ** The table handed to the VAR fitter *)

Section Reordering.
Variables (env : Env) (user_login : string) (variables : list string)
          (project calendar_interval information_criterion : string)
          (periods : Z) (train_sample_size : nat) (full : DataFrame).
Hypothesis distinct : NoDup variables.


Lemma permutation_loop_from_full (items : list (nat * list string)) :
  (forall item, In item items -> Permutation (snd item) variables) ->
  forall st w,
    selects_like_full variables full st ->
    for_each (permutation_body env user_login variables project calendar_interval
                information_criterion periods train_sample_size) items st w
    = for_each (permutation_step env user_login variables project calendar_interval
                  information_criterion periods train_sample_size full) items st w.
Proof.
  induction items as [|item items IH]; intros Hitems st w Hst; [reflexivity|].
  assert (Hitem : Permutation (snd item) variables) by (apply Hitems; left; reflexivity).
  cbn [for_each]. rewrite !bind_unfold. unfold permutation_body.
  assert (Hstep : permutation_step env user_login variables project calendar_interval
                    information_criterion periods train_sample_size (train_dataset st)
                    item st
                  = permutation_step env user_login variables project calendar_interval
                      information_criterion periods train_sample_size full item st).
  { unfold permutation_step. rewrite (Hst (snd item)); [reflexivity|].
    intros l Hl. eapply Permutation_in; eassumption. }
  rewrite Hstep.
  destruct (permutation_step _ _ _ _ _ _ _ _ full item st w) as [[st1|e] w1] eqn:E;
    [|reflexivity].
  apply IH; [intros i Hi; apply Hitems; right; exact Hi|].
  destruct (permutation_step_returned _ _ _ _ _ _ _ _ _ _ _ _ _ _ E) as (r & Hsel & _).
  intros q Hq. eapply getitem_list_select; [exact Hsel | |].
  - rewrite Hitem. exact distinct.
  - intros l Hl. eapply Permutation_in; [symmetry; exact Hitem | apply Hq, Hl].
Qed.
End Reordering.

Lemma enumerate_permutations (variables : list string) (item : nat * list string) :
  In item (enumerate (itertools.permutations variables)) ->
  Permutation (snd item) variables.
Proof.
  intros Hin. apply permutations_Permutation.
  rewrite <- (proj2 (enumerate_labels (itertools.permutations variables))).
  apply in_map, Hin.
Qed.

(** X5: for variables with distinct names, taking the columns of each
    permutation from the table of the previous iteration, as
    [train_var_model] does, is the same as taking them from the full
    training table each time: the two loops give the same outcome, the same
    table for every fit and the same world, on every input. *)
Theorem train_var_model_reorders_full_table
    (env : Env) (consolidated_dataframe : DataFrame) (user_login : string)
    (variables : list string) (project calendar_interval information_criterion : string)
    (periods : Z) (w : World) :
  NoDup variables ->
  train_var_model_loop env consolidated_dataframe user_login variables project
    calendar_interval information_criterion periods w
  = train_var_model_loop_fresh env consolidated_dataframe user_login variables project
      calendar_interval information_criterion periods w
  /\ train_var_model env consolidated_dataframe user_login variables project
       calendar_interval information_criterion periods w
     = train_var_model_fresh env consolidated_dataframe user_login variables project
         calendar_interval information_criterion periods w.
Proof.
  intros Hdistinct.
  assert (Hloop : train_var_model_loop env consolidated_dataframe user_login variables
                    project calendar_interval information_criterion periods w
                  = train_var_model_loop_fresh env consolidated_dataframe user_login
                      variables project calendar_interval information_criterion
                      periods w).
  { unfold train_var_model_loop, train_var_model_loop_fresh. rewrite !bind_unfold.
    destruct (print _ w) as [[u|e] w0]; [|reflexivity].
    apply permutation_loop_from_full.
    - exact Hdistinct.
    - apply enumerate_permutations.
    - intros q Hq. reflexivity. }
  split; [exact Hloop|].
  unfold train_var_model, train_var_model_fresh. rewrite !bind_unfold, Hloop. reflexivity.
Qed.

Lemma train_var_model_reorders_full_table_witness :
  train_var_model_loop Demo.env Demo.differenced "alice" Demo.variables "demo" "month"
    "bic" 24 empty_world
  = train_var_model_loop_fresh Demo.env Demo.differenced "alice" Demo.variables "demo"
      "month" "bic" 24 empty_world
  /\ train_var_model Demo.env Demo.differenced "alice" Demo.variables "demo" "month"
       "bic" 24 empty_world
     = train_var_model_fresh Demo.env Demo.differenced "alice" Demo.variables "demo"
         "month" "bic" 24 empty_world.
Proof.
  apply (train_var_model_reorders_full_table Demo.env Demo.differenced "alice"
           Demo.variables "demo" "month" "bic" 24 empty_world).
  apply (bool_decide_unpack _). vm_compute. reflexivity.
Defined.

(** ** The loop over mergers *)

Section Project.
Variables (env : Env) (es : Elasticsearch) (pull_request_index : string)
          (variables : list string) (calendar_interval information_criterion : string).

Lemma analyse_merger_returns (user_login : string) (merger_data : list (dict.t PyObj))
    (w : World) :
  exists added w1,
    analyse_merger env es pull_request_index variables calendar_interval
      information_criterion user_login merger_data w
    = (Returned (merger_data ++ added)%list, w1)
    /\ (length added <= 1)%nat.
Proof.
  unfold analyse_merger, try_except. rewrite bind_unfold.
  destruct (analyse_user _ _ _ _ _ _ _ _ w) as [[[[|field row]|]|e] w1].
  - exists [], w1. rewrite app_nil_r. split; [reflexivity | simpl; lia].
  - exists [field :: row], w1. split; [reflexivity | simpl; lia].
  - exists [], w1. rewrite app_nil_r. split; [reflexivity | simpl; lia].
  - rewrite isinstance_Exception. eexists [], _. rewrite app_nil_r.
    split; [reflexivity | simpl; lia].
Qed.

Lemma analyse_mergers_return (all_mergers : list string) :
  forall (merger_data : list (dict.t PyObj)) (w : World),
  exists added w1,
    for_each (analyse_merger env es pull_request_index variables calendar_interval
                information_criterion) all_mergers merger_data w
    = (Returned (merger_data ++ added)%list, w1)
    /\ (length added <= length all_mergers)%nat.
Proof.
  induction all_mergers as [|user_login rest IH]; intros merger_data w.
  - exists [], w. rewrite app_nil_r. split; [reflexivity | simpl; lia].
  - cbn [for_each]. rewrite bind_unfold.
    destruct (analyse_merger_returns user_login merger_data w)
      as (added & w1 & Hrun & Hlen).
    rewrite Hrun.
    destruct (IH (merger_data ++ added)%list w1) as (added1 & w2 & Hrest & Hlen1).
    rewrite Hrest. exists (added ++ added1)%list, w2. rewrite app_assoc.
    split; [reflexivity|]. rewrite length_app. simpl. lia.
Qed.

(** X6: once the index has been refreshed and counted and the mergers
    listed, [analyse_project] returns: no failure in the analysis of a user
    gets out of the loop.  It returns the document count together with at
    most one row per merger. *)
Theorem analyse_project_returns
    (document_count : list (dict.t string)) (documents : Z) (all_mergers : list string)
    (w : World) :
  indices_refresh es pull_request_index = Returned tt ->
  cat_count es pull_request_index = Returned document_count ->
  first_count env document_count = Returned documents ->
  get_all_mergers env es pull_request_index = Returned all_mergers ->
  exists consolidated_analysis w1,
    analyse_project env es pull_request_index calendar_interval variables
      information_criterion w
    = (Returned (documents, consolidated_analysis), w1)
    /\ (length consolidated_analysis <= length all_mergers)%nat.
Proof.
  intros Hrefresh Hcount Hfirst Hmergers. unfold analyse_project.
  rewrite bind_unfold, Hrefresh, lift_run.
  rewrite bind_unfold, Hcount, lift_run.
  rewrite bind_unfold, Hfirst, lift_run.
  rewrite bind_unfold. unfold print at 1.
  rewrite bind_unfold, Hmergers, lift_run.
  rewrite bind_unfold.
  match goal with
  | |- context [for_each _ all_mergers [] ?w0] =>
      destruct (analyse_mergers_return all_mergers [] w0) as (added & w1 & Hrun & Hlen)
  end.
  rewrite Hrun. exists added, w1. split; [reflexivity | exact Hlen].
Qed.
End Project.

Lemma analyse_project_returns_witness :
  exists consolidated_analysis w1,
    analyse_project Demo.env Demo.es "demo" "month" Demo.variables "bic" empty_world
    = (Returned (42, consolidated_analysis), w1)
    /\ (length consolidated_analysis <= length ["alice"; "bob"])%nat.
Proof.
  apply (analyse_project_returns Demo.env Demo.es "demo" Demo.variables "month" "bic"
           [[("count", "42")]] 42 ["alice"; "bob"] empty_world); reflexivity.
Defined.

(** ** Users without data *)


Section Consolidation.
Variables (env : Env) (es : Elasticsearch) (pull_request_index user_login : string)
          (variables : list string) (calendar_interval : string).

Lemma analyse_user_no_data (information_criterion project : string)
    (consolidated_dataframe : DataFrame) (w w0 : World) :
  consolidate_dataframe env es pull_request_index user_login variables
    calendar_interval w = (Returned consolidated_dataframe, w0) ->
  pd.len consolidated_dataframe = 0%nat ->
  analyse_user env es pull_request_index user_login variables calendar_interval
    information_criterion project w
  = (Returned None, add_print (PNoDataPoints user_login pull_request_index) w0).
Proof.
  intros Hrun Hlen. unfold analyse_user, analyse_user_var.
  rewrite !bind_unfold, Hrun. rewrite bool_decide_eq_true_2 by exact Hlen.
  reflexivity.
Qed.

(** X7: a user for whom the merges-performed series is asked and comes
    back without rows is not analysable: [consolidate_dataframe] logs one
    error and returns the empty frame without asking for the other series,
    and [analyse_user] prints that there are no data points and returns
    [None]; neither raises. *)
Theorem analyse_user_without_merges_performed
    (information_criterion project : string) (merges_performed_dataframe : DataFrame)
    (w : World) :
  MERGES_PERFORMED_COLUMN env ∈ variables ->
  get_merges_performed env es pull_request_index user_login calendar_interval
  = Returned merges_performed_dataframe ->
  pd.len merges_performed_dataframe = 0%nat ->
  let w0 := add_log (LogError ("User " ++ user_login
                                 ++ " does not merge PRs for other developers")) w in
  consolidate_dataframe env es pull_request_index user_login variables
    calendar_interval w = (Returned pd.DataFrame_new, w0)
  /\ analyse_user env es pull_request_index user_login variables calendar_interval
       information_criterion project w
     = (Returned None, add_print (PNoDataPoints user_login pull_request_index) w0).
Proof.
  intros Hasked Hperformed Hlen w0.
  assert (Hrun : consolidate_dataframe env es pull_request_index user_login variables
                   calendar_interval w = (Returned pd.DataFrame_new, w0)).
  { unfold consolidate_dataframe.
    rewrite bool_decide_eq_true_2 by exact Hasked.
    rewrite bind_unfold, Hperformed, lift_run.
    rewrite bool_decide_eq_true_2 by exact Hlen. reflexivity. }
  split; [exact Hrun|].
  exact (analyse_user_no_data _ _ pd.DataFrame_new w w0 Hrun eq_refl).
Qed.

(** X8: when none of the three series is among the variables,
    [consolidate_dataframe] has nothing to concatenate and raises the
    [ValueError] of [pd.concat], and so does [analyse_user]; nothing is
    logged or printed before. *)
Theorem consolidate_dataframe_without_series
    (information_criterion project : string) (w : World) :
  MERGES_PERFORMED_COLUMN env ∉ variables ->
  MERGES_REQUESTED_COLUMN env ∉ variables ->
  MERGES_SUCCESSFUL_COLUMN env ∉ variables ->
  consolidate_dataframe env es pull_request_index user_login variables
    calendar_interval w = (Raised (ValueError "No objects to concatenate"), w)
  /\ analyse_user env es pull_request_index user_login variables calendar_interval
       information_criterion project w
     = (Raised (ValueError "No objects to concatenate"), w).
Proof.
  intros Hperformed Hrequested Hsuccessful.
  assert (Hrun : consolidate_dataframe env es pull_request_index user_login variables
                   calendar_interval w
                 = (Raised (ValueError "No objects to concatenate"), w)).
  { unfold consolidate_dataframe, consolidate_requested, consolidate_successful.
    rewrite !bool_decide_eq_false_2 by assumption. reflexivity. }
  split; [exact Hrun|].
  unfold analyse_user, analyse_user_var. rewrite !bind_unfold, Hrun. reflexivity.
Qed.
End Consolidation.

Lemma analyse_user_without_merges_performed_witness :
  let env := Demo.env_with (mkFrame [] [("merges_performed", [])]) Demo.requested
               Demo.successful (Returned tt) in
  let w0 := add_log (LogError ("User " ++ "alice"
                                 ++ " does not merge PRs for other developers"))
                    empty_world in
  consolidate_dataframe env Demo.es "demo" "alice" Demo.variables "month" empty_world
  = (Returned pd.DataFrame_new, w0)
  /\ analyse_user env Demo.es "demo" "alice" Demo.variables "month" "bic" "demo"
       empty_world
     = (Returned None, add_print (PNoDataPoints "alice" "demo") w0).
Proof.
  apply (analyse_user_without_merges_performed
           (Demo.env_with (mkFrame [] [("merges_performed", [])]) Demo.requested
              Demo.successful (Returned tt))
           Demo.es "demo" "alice" Demo.variables "month" "bic" "demo"
           (mkFrame [] [("merges_performed", [])]) empty_world).
  - apply (bool_decide_unpack _). vm_compute. reflexivity.
  - reflexivity.
  - reflexivity.
Defined.

Lemma consolidate_dataframe_without_series_witness :
  consolidate_dataframe Demo.env Demo.es "demo" "alice" ["commits"] "month" empty_world
  = (Raised (ValueError "No objects to concatenate"), empty_world)
  /\ analyse_user Demo.env Demo.es "demo" "alice" ["commits"] "month" "bic" "demo"
       empty_world
     = (Raised (ValueError "No objects to concatenate"), empty_world).
Proof.
  apply (consolidate_dataframe_without_series Demo.env Demo.es "demo" "alice"
           ["commits"] "month" "bic" "demo" empty_world);
    apply (bool_decide_unpack _); vm_compute; reflexivity.
Defined.

(** ** Users with data *)

Section WithData.
Variables (env : Env) (es : Elasticsearch) (pull_request_index user_login : string)
          (variables : list string) (calendar_interval : string).

Lemma analyse_user_returned_none
    (information_criterion project : string) (w w1 : World) :
  analyse_user env es pull_request_index user_login variables calendar_interval
    information_criterion project w = (Returned None, w1) ->
  exists consolidated_dataframe w0,
    consolidate_dataframe env es pull_request_index user_login variables
      calendar_interval w = (Returned consolidated_dataframe, w0)
    /\ pd.len consolidated_dataframe = 0%nat
    /\ w1 = add_print (PNoDataPoints user_login pull_request_index) w0.
Proof.
  unfold analyse_user. intros H.
  apply bind_returned_inv in H as ([ua|] & w2 & Hvar & H).
  - unfold analyse_user_plots in H.
    apply bind_returned_inv in H as (u & w3 & _ & H).
    apply mret_returned_inv in H as [H _]. discriminate H.
  - apply mret_returned_inv in H as [_ ->].
    unfold analyse_user_var in Hvar.
    apply bind_returned_inv in Hvar as (df & w0 & Hrun & H).
    exists df, w0. split; [exact Hrun|].
    destruct (bool_decide (pd.len df = 0%nat)) eqn:Hlen.
    + apply bool_decide_eq_true_1 in Hlen. split; [exact Hlen|].
      apply bind_returned_inv in H as (u & w3 & Hprint & H).
      apply mret_returned_inv in H as [_ ->]. injection Hprint as _ <-. reflexivity.
    + exfalso.
      do 6 (apply bind_returned_inv in H as (? & ? & _ & H)).
      apply mret_returned_inv in H as [H _]. discriminate H.
Qed.

(** X9: [analyse_user] returns [None] only for a user whose consolidated
    frame has no rows; a user with rows gets a record or an exception. *)
Theorem analyse_user_none_only_without_rows
    (information_criterion project : string) (w w1 : World) :
  analyse_user env es pull_request_index user_login variables calendar_interval
    information_criterion project w = (Returned None, w1) ->
  exists consolidated_dataframe w0,
    consolidate_dataframe env es pull_request_index user_login variables
      calendar_interval w = (Returned consolidated_dataframe, w0)
    /\ pd.len consolidated_dataframe = 0%nat
    /\ w1 = add_print (PNoDataPoints user_login pull_request_index) w0.
Proof. apply analyse_user_returned_none. Qed.

(** X10: the merges-requested series is never tested for emptiness.  With
    the three series asked for, and rows in the merges-performed and the
    merges-successful series, [consolidate_dataframe] hands the three
    frames to [pd.concat] whatever the merges-requested series holds, also
    when it holds nothing: it logs nothing and returns no empty frame of
    its own, its outcome is that of the concatenation, with the gaps filled
    with zero.  When the concatenation has rows, [analyse_user] does not
    return [None]: the user is not skipped. *)
Theorem consolidate_dataframe_keeps_empty_requests
    (merges_performed_dataframe merge_requests_dataframe requests_merged_dataframe
       : DataFrame) (w : World) :
  MERGES_PERFORMED_COLUMN env ∈ variables ->
  MERGES_REQUESTED_COLUMN env ∈ variables ->
  MERGES_SUCCESSFUL_COLUMN env ∈ variables ->
  get_merges_performed env es pull_request_index user_login calendar_interval
  = Returned merges_performed_dataframe ->
  get_merge_requests env es pull_request_index user_login calendar_interval
  = Returned merge_requests_dataframe ->
  get_requests_merged env es pull_request_index user_login calendar_interval
  = Returned requests_merged_dataframe ->
  pd.len merges_performed_dataframe <> 0%nat ->
  pd.len requests_merged_dataframe <> 0%nat ->
  let frames := [merges_performed_dataframe; merge_requests_dataframe;
                 requests_merged_dataframe] in
  consolidate_dataframe env es pull_request_index user_login variables
    calendar_interval w
  = (match concat_frames env frames with
     | Returned joined => Returned (pd.fillna 0 joined)
     | Raised e => Raised e
     end, w)
  /\ forall joined,
       concat_frames env frames = Returned joined ->
       pd.len joined <> 0%nat ->
       forall information_criterion project w1,
         analyse_user env es pull_request_index user_login variables calendar_interval
           information_criterion project w <> (Returned None, w1).
Proof.
  intros Hp Hr Hs Hperformed Hrequests Hmerged Hlenp Hlens frames.
  assert (Hrun : consolidate_dataframe env es pull_request_index user_login variables
                   calendar_interval w
                 = (match concat_frames env frames with
                    | Returned joined => Returned (pd.fillna 0 joined)
                    | Raised e => Raised e
                    end, w)).
  { unfold consolidate_dataframe, consolidate_requested, consolidate_successful,
      consolidate_concat.
    rewrite !bool_decide_eq_true_2 by assumption.
    rewrite bind_unfold, Hperformed, lift_run.
    rewrite bool_decide_eq_false_2 by exact Hlenp.
    rewrite bind_unfold, Hrequests, lift_run.
    rewrite bind_unfold, Hmerged, lift_run.
    rewrite bool_decide_eq_false_2 by exact Hlens.
    rewrite bind_unfold, lift_run. cbn [app pd.concat]. fold frames.
    destruct (concat_frames env frames); reflexivity. }
  split; [exact Hrun|].
  intros joined Hjoined Hlen information_criterion project w1 Hnone.
  apply analyse_user_returned_none in Hnone as (df & w0 & Hrun0 & Hzero & _).
  rewrite Hrun, Hjoined in Hrun0. injection Hrun0 as <- _. exact (Hlen Hzero).
Qed.
End WithData.

Lemma analyse_user_none_only_without_rows_witness :
  exists consolidated_dataframe w0,
    consolidate_dataframe
      (Demo.env_with (mkFrame [] [("merges_performed", [])]) Demo.requested
         Demo.successful (Returned tt))
      Demo.es "demo" "alice" Demo.variables "month" empty_world
    = (Returned consolidated_dataframe, w0)
    /\ pd.len consolidated_dataframe = 0%nat.
Proof.
  destruct (analyse_user_none_only_without_rows
              (Demo.env_with (mkFrame [] [("merges_performed", [])]) Demo.requested
                 Demo.successful (Returned tt))
              Demo.es "demo" "alice" Demo.variables "month" "bic" "demo" empty_world
              (add_print (PNoDataPoints "alice" "demo")
                 (add_log (LogError ("User " ++ "alice"
                                       ++ " does not merge PRs for other developers"))
                    empty_world)))
    as (df & w0 & Hrun & Hlen & _).
  - vm_compute. reflexivity.
  - exists df, w0. split; assumption.
Defined.

Lemma consolidate_dataframe_keeps_empty_requests_witness :
  exists consolidated,
    consolidate_dataframe
      (Demo.env_with Demo.performed (mkFrame [] [("merges_requested", [])])
         Demo.successful (Returned tt))
      Demo.es "demo" "alice" Demo.variables "month" empty_world
    = (Returned consolidated, empty_world)
    /\ In ("merges_requested", map (fun _ => Some 0) (index consolidated))
          (columns consolidated).
Proof.
  destruct (consolidate_dataframe_keeps_empty_requests
              (Demo.env_with Demo.performed (mkFrame [] [("merges_requested", [])])
                 Demo.successful (Returned tt))
              Demo.es "demo" "alice" Demo.variables "month" Demo.performed
              (mkFrame [] [("merges_requested", [])]) Demo.successful empty_world)
    as [Hrun _].
  - apply (bool_decide_unpack _). vm_compute. reflexivity.
  - apply (bool_decide_unpack _). vm_compute. reflexivity.
  - apply (bool_decide_unpack _). vm_compute. reflexivity.
  - reflexivity.
  - reflexivity.
  - reflexivity.
  - apply (bool_decide_unpack _). vm_compute. reflexivity.
  - apply (bool_decide_unpack _). vm_compute. reflexivity.
  - eexists. split; [exact Hrun|]. vm_compute. right. left. reflexivity.
Defined.

(** ** The refinement loop, whatever the tests say *)

Lemma get_lags_no_warning (user_login : string) (sample_size candidate_order : Z)
    (w w1 : World) (o : outcome Z) :
  get_lags_for_whiteness_test user_login sample_size candidate_order w = (o, w1) ->
  warnings (logging w1) = warnings (logging w).
Proof.
  unfold get_lags_for_whiteness_test. destruct (sample_size <? 0); intros H;
    injection H as _ <-; [reflexivity|].
  simpl. rewrite warnings_app. apply app_nil_r.
Qed.

Section AnyTests.
Variables (var_model : VARModel) (user_login : string) (sample_size : Z).


Lemma refit_warnings_S (k : Z) (m : nat) :
  refit_warnings user_login k (S m) = refit_warning user_login (k + 1) :: refit_warnings user_login (k + 1) m.
Proof.
  unfold refit_warnings. rewrite (seqZ_cons (k + 1)) by lia. simpl.
  do 3 f_equal; lia.
Qed.

Lemma refit_loop_bounded (budget : nat) :
  forall (candidate_order : Z)
         (fitted : VARResults * WhitenessTestResults * NormalityTestResults)
         (w w1 : World)
         (o : outcome (VARResults * WhitenessTestResults * NormalityTestResults)),
    Z.to_nat (13 - candidate_order) = budget ->
    refit_loop var_model user_login sample_size candidate_order fitted w = (o, w1) ->
    exists m,
      (m <= budget)%nat
      /\ warnings (logging w1) = (warnings (logging w) ++ refit_warnings user_login candidate_order m)%list
      /\ forall training_result whiteness_result normality_result,
           o = Returned (training_result, whiteness_result, normality_result) ->
           conclusion whiteness_result = "reject" -> m = budget.
Proof.
  induction budget as [|budget IH]; intros k [[tr wr] nr] w w1 o Hbudget H;
    rewrite refit_loop_step in H.
  - rewrite (proj2 (Z.leb_gt k 12)), andb_false_r in H by lia.
    injection H as <- <-. exists 0%nat. rewrite app_nil_r. auto.
  - rewrite (proj2 (Z.leb_le k 12)), andb_true_r in H by lia.
    destruct (String.eqb (conclusion wr) "reject") eqn:Ereject.
    + assert (Hstop : forall e w2,
                 warnings (logging w2)
                 = (warnings (logging w) ++ [refit_warning user_login (k + 1)])%list ->
                 (Raised e, w2) = (o, w1) ->
                 exists m,
                   (m <= S budget)%nat
                   /\ warnings (logging w1)
                      = (warnings (logging w) ++ refit_warnings user_login k m)%list
                   /\ forall training_result whiteness_result normality_result,
                        o = Returned (training_result, whiteness_result,
                                      normality_result) ->
                        conclusion whiteness_result = "reject" -> m = S budget).
      { intros e w2 Hlog Heq. injection Heq as <- <-. exists 1%nat.
        split; [lia|]. split; [exact Hlog|]. intros ? ? ? Hdone. discriminate Hdone. }
      rewrite bind_unfold in H. simpl in H.
      match type of H with
      | _ ?w0 = _ =>
          assert (Hwarned : warnings (logging w0)
                            = (warnings (logging w)
                               ++ [refit_warning user_login (k + 1)])%list)
            by (simpl; rewrite warnings_app; reflexivity)
      end.
      rewrite bind_unfold, lift_run in H.
      destruct (fit var_model (k + 1)) as [tr1|e]; [|eapply Hstop; [|exact H]; assumption].
      rewrite bind_unfold in H.
      destruct (get_lags_for_whiteness_test _ _ _ _) as [[nlags|e] w2] eqn:Elags;
        apply get_lags_no_warning in Elags; rewrite Hwarned in Elags.
      2: { eapply Hstop; [|exact H]; assumption. }
      rewrite bind_unfold, lift_run in H.
      destruct (test_whiteness tr1 nlags) as [wr1|e]; [|eapply Hstop; [|exact H]; assumption].
      rewrite bind_unfold, lift_run in H.
      destruct (test_normality tr1) as [nr1|e]; [|eapply Hstop; [|exact H]; assumption].
      apply IH in H as (m & Hm & Hlog & Hlast); [|lia].
      exists (S m). split; [lia|]. split.
      * rewrite Hlog, Elags, <- app_assoc, refit_warnings_S. reflexivity.
      * intros ? ? ? Hdone Hrej. f_equal. eapply Hlast; eassumption.
    + injection H as <- <-. exists 0%nat. split; [lia|].
      split; [rewrite app_nil_r; reflexivity|].
      intros ? ? ? Hdone Hrej. injection Hdone as <- <- <-.
      rewrite Hrej in Ereject. discriminate Ereject.
Qed.
End AnyTests.

(** X11: whatever the fits and the tests do, return or raise,
    [fit_var_model] makes at most [13 - initial_order] refits, one warning
    each, for the orders following the initial one in turn.  When it
    returns a whiteness result that still rejects, it has made them all:
    it only gives up at an order above 12. *)
Theorem fit_var_model_refits_bounded
    (var_model : VARModel) (information_criterion user_login : string)
    (sample_size : Z) (order_results : LagOrderResults) (initial_order : Z)
    (w w1 : World)
    (o : outcome (VARResults * WhitenessTestResults * NormalityTestResults
                  * LagOrderResults)) :
  select_order var_model = Returned order_results ->
  dict.get information_criterion (selected_orders order_results) = Some initial_order ->
  fit_var_model var_model information_criterion user_login sample_size w = (o, w1) ->
  exists m,
    (m <= Z.to_nat (13 - initial_order))%nat
    /\ warnings (logging w1)
       = (warnings (logging w) ++ refit_warnings user_login initial_order m)%list
    /\ forall training_result whiteness_result normality_result var_order_result,
         o = Returned (training_result, whiteness_result, normality_result,
                       var_order_result) ->
         conclusion whiteness_result = "reject" ->
         m = Z.to_nat (13 - initial_order).
Proof.
  intros Horders Hselected H. unfold fit_var_model in H.
  rewrite bind_unfold, Horders, lift_run in H.
  rewrite bind_unfold, Hselected, lift_run in H.
  assert (Hstop : forall e w2,
             warnings (logging w2) = warnings (logging w) ->
             (Raised e, w2) = (o, w1) ->
             exists m,
               (m <= Z.to_nat (13 - initial_order))%nat
               /\ warnings (logging w1)
                  = (warnings (logging w)
                     ++ refit_warnings user_login initial_order m)%list
               /\ forall training_result whiteness_result normality_result
                         var_order_result,
                    o = Returned (training_result, whiteness_result, normality_result,
                                  var_order_result) ->
                    conclusion whiteness_result = "reject" ->
                    m = Z.to_nat (13 - initial_order)).
  { intros e w2 Hlog Heq. injection Heq as <- <-. exists 0%nat.
    split; [lia|]. split; [rewrite app_nil_r; exact Hlog|].
    intros ? ? ? ? Hdone. discriminate Hdone. }
  rewrite bind_unfold, lift_run in H.
  destruct (fit var_model initial_order) as [tr|e];
    [|eapply Hstop; [|exact H]; reflexivity].
  rewrite bind_unfold in H.
  destruct (get_lags_for_whiteness_test _ _ _ _) as [[nlags|e] w2] eqn:Elags;
    apply get_lags_no_warning in Elags.
  2: { eapply Hstop; [|exact H]; assumption. }
  rewrite bind_unfold, lift_run in H.
  destruct (test_whiteness tr nlags) as [wr|e]; [|eapply Hstop; [|exact H]; assumption].
  rewrite bind_unfold, lift_run in H.
  destruct (test_normality tr) as [nr|e]; [|eapply Hstop; [|exact H]; assumption].
  rewrite bind_unfold in H.
  destruct (refit_loop _ _ _ _ _ w2) as [[[[tr1 wr1] nr1]|e] w3] eqn:Eloop;
    apply (refit_loop_bounded _ _ _ _ _ _ _ _ _ eq_refl) in Eloop
      as (m & Hm & Hlog & Hlast);
    rewrite Elags in Hlog; exists m; (split; [exact Hm|]).
  - simpl in H. injection H as <- <-. split; [exact Hlog|].
    intros ? ? ? ? Hdone Hrej. injection Hdone as <- <- <- <-.
    eapply Hlast; [reflexivity | exact Hrej].
  - injection H as <- <-. split; [exact Hlog|].
    intros ? ? ? ? Hdone. discriminate Hdone.
Qed.

Lemma fit_var_model_refits_bounded_witness :
  exists m,
    (m <= Z.to_nat (13 - 1))%nat
    /\ warnings (logging (snd (fit_var_model (Demo.model_for Demo.differenced) "bic"
                                 "alice" 30 empty_world)))
       = (warnings (logging empty_world) ++ refit_warnings "alice" 1 m)%list.
Proof.
  pose (run := fit_var_model (Demo.model_for Demo.differenced) "bic" "alice" 30
                 empty_world).
  destruct (fit_var_model_refits_bounded (Demo.model_for Demo.differenced) "bic"
              "alice" 30 Demo.orders 1 empty_world (snd run) (fst run))
    as (m & Hm & Hlog & _).
  - reflexivity.
  - reflexivity.
  - apply surjective_pairing.
  - exists m. split; [exact Hm | exact Hlog].
Defined.

(** ** Failures of the diagnostic plots *)

Section Plots.
Variables (env : Env) (es : Elasticsearch) (pull_request_index user_login : string)
          (variables : list string) (calendar_interval information_criterion : string).

(** X12: an exception of the diagnostic plots that is not a [ValueError]
    leaves [analyse_user] after the VAR analysis is done, and with it the
    record of the user: in the loop of [analyse_project] the failure is
    logged twice and the rows collected so far stay as they are. *)
Theorem analyse_user_plot_failure_propagates
    (project : string) (ua : UserAnalysis) (e : PyExc) (w w1 w2 : World) :
  analyse_user_var env es pull_request_index user_login variables calendar_interval
    information_criterion project w = (Returned (Some ua), w1) ->
  diagnostic_plots env (ua_consolidated ua) (ua_differenced ua) user_login project w1
  = (Raised e, w2) ->
  isinstance e "ValueError" = false ->
  analyse_user env es pull_request_index user_login variables calendar_interval
    information_criterion project w = (Raised e, w2)
  /\ (project = pull_request_index ->
      forall merger_data,
        analyse_merger env es pull_request_index variables calendar_interval
          information_criterion user_login merger_data w
        = (Returned merger_data,
           add_log (LogError ("Cannot analyse user " ++ user_login))
             (add_log (LogError (format_exc env e)) w2))).
Proof.
  intros Hvar Hplots Hclass.
  assert (Hrun : analyse_user env es pull_request_index user_login variables
                   calendar_interval information_criterion project w = (Raised e, w2)).
  { unfold analyse_user. rewrite bind_unfold, Hvar.
    unfold analyse_user_plots. rewrite bind_unfold. unfold try_except.
    rewrite Hplots, Hclass. reflexivity. }
  split; [exact Hrun|]. intros -> merger_data.
  unfold analyse_merger, try_except. rewrite bind_unfold, Hrun, isinstance_Exception.
  reflexivity.
Qed.

End Plots.


Lemma diagnostic_plots_first_plot_raises (env : Env)
    (consolidated_dataframe after_differencing_data : DataFrame)
    (user_login project : string) (e : PyExc) (w : World) :
  DataFrame_plot env consolidated_dataframe
    (user_login ++ "_" ++ project ++ "_before_differencing") = Raised e ->
  diagnostic_plots env consolidated_dataframe after_differencing_data user_login
    project w = (Raised e, w).
Proof.
  intros H. unfold diagnostic_plots, plot_dataframe.
  rewrite !bind_unfold, H. reflexivity.
Qed.

Lemma analyse_user_plot_failure_propagates_witness :
  analyse_user (Demo.env_with Demo.performed Demo.requested Demo.successful
                  (Raised (KeyError "plot")))
    Demo.es "demo" "alice" Demo.variables "month" "bic" "demo" empty_world
  = (Raised (KeyError "plot"), snd (demo_reached (KeyError "plot"))).
Proof.
  apply (analyse_user_plot_failure_propagates
           (Demo.env_with Demo.performed Demo.requested Demo.successful
              (Raised (KeyError "plot")))
           Demo.es "demo" "alice" Demo.variables "month" "bic" "demo"
           (demo_analysis (KeyError "plot")) (KeyError "plot") empty_world
           (snd (demo_reached (KeyError "plot")))
           (snd (demo_reached (KeyError "plot")))).
  - apply (returned_some_run _ (mkUserAnalysis pd.DataFrame_new pd.DataFrame_new [] [])).
    vm_compute. reflexivity.
  - apply diagnostic_plots_first_plot_raises. reflexivity.
  - vm_compute. reflexivity.
Defined.


(** ** The verdicts of [check_causality] *)

Lemma for_each_returned_ind {X S} (body : X -> S -> M S) (P : list X -> S -> Prop)
    (xs : list X) :
  (forall pre x s w s1 w1,
      P pre s -> body x s w = (Returned s1, w1) -> P (pre ++ [x])%list s1) ->
  forall pre s w s1 w1,
    P pre s -> for_each body xs s w = (Returned s1, w1) -> P (pre ++ xs)%list s1.
Proof.
  intros Hstep. induction xs as [|x xs IH]; intros pre s w s1 w1 Hpre H.
  - apply mret_returned_inv in H as [-> _]. rewrite app_nil_r. exact Hpre.
  - cbn [for_each] in H. apply bind_returned_inv in H as (s0 & w0 & Hx & Hrest).
    replace (pre ++ x :: xs)%list with ((pre ++ [x]) ++ xs)%list
      by (rewrite <- app_assoc; reflexivity).
    eapply IH; [|exact Hrest]. eapply Hstep; eassumption.
Qed.

Lemma dict_contains_set {V} (k k1 : string) (v : V) (d : dict.t V) :
  dict.contains k d = true -> dict.contains k (dict.set k1 v d) = true.
Proof.
  unfold dict.contains. destruct (String.eqb k k1) eqn:E.
  - apply String.eqb_eq in E. subst k1. rewrite dict_get_set_eq. reflexivity.
  - apply String.eqb_neq in E. rewrite dict_get_set_ne by exact E. auto.
Qed.

Section Causality.
Variables (env : Env) (training_result : VARResults) (user_login : string)
          (permutation_index : nat) (causality_threshold : float).


Lemma verdicts_of_set (pairs : list (string * string)) (d : dict.t bool)
    (cause effect : string) (v : bool) :
  verdicts_of training_result causality_threshold pairs d -> verdict_of training_result causality_threshold cause effect v ->
  verdicts_of training_result causality_threshold (pairs ++ [(cause, effect)])
              (dict.set (cause ++ "->" ++ effect) v d).
Proof.
  intros [Hsound Hcomplete] Hv. split.
  - intros k v1 Hget. destruct (String.eqb k (cause ++ "->" ++ effect)) eqn:E.
    + apply String.eqb_eq in E. subst k. rewrite dict_get_set_eq in Hget.
      injection Hget as <-. exists cause, effect.
      split; [apply in_or_app; right; left; reflexivity|]. split; [reflexivity | exact Hv].
    + apply String.eqb_neq in E. rewrite dict_get_set_ne in Hget by exact E.
      destruct (Hsound k v1 Hget) as (c & e & Hin & Hk & Hverdict).
      exists c, e. split; [apply in_or_app; left; exact Hin | auto].
  - intros c e Hin. apply in_app_or in Hin as [Hin|[Heq|[]]].
    + apply dict_contains_set, Hcomplete, Hin.
    + injection Heq as <- <-. unfold dict.contains. rewrite dict_get_set_eq. reflexivity.
Qed.


Lemma check_causality_verdicts (variables : list string) (d : dict.t bool)
    (w w1 : World) :
  check_causality env variables training_result user_login permutation_index
    causality_threshold w = (Returned d, w1) ->
  verdicts_of training_result causality_threshold (causality_pairs variables) d.
Proof.
  unfold check_causality. intros H.
  assert (Hall : verdicts_of training_result causality_threshold (flat_map (fun c => pairs_of c variables) ([] ++ variables))
                             d).
  { eapply (for_each_returned_ind _
              (fun pre d => verdicts_of training_result causality_threshold (flat_map (fun c => pairs_of c variables) pre) d));
      [| |exact H]; [|split; [intros k v Hk; discriminate Hk | intros c e []]].
    clear d w w1 H. intros done cause d w d1 w1 Hdone H.
    rewrite flat_map_app. simpl. rewrite app_nil_r.
    assert (Hinner : verdicts_of training_result causality_threshold (flat_map (fun c => pairs_of c variables) done
                                  ++ pairs_of cause ([] ++ variables)) d1).
    { eapply (for_each_returned_ind _
                (fun pre d => verdicts_of training_result causality_threshold (flat_map (fun c => pairs_of c variables) done
                                           ++ pairs_of cause pre) d));
        [| |exact H]; [|simpl; rewrite app_nil_r; exact Hdone].
      clear d w d1 w1 H Hdone. intros pre effect d w d1 w1 Hpre H.
      unfold pairs_of. rewrite flat_map_app. simpl. rewrite app_nil_r.
      fold (pairs_of cause pre). cbv beta in H.
      destruct (negb (String.eqb cause effect)).
      - apply bind_returned_inv in H as (r & w2 & Htest & H).
        apply lift_returned_inv in Htest as [Htest ->].
        apply bind_returned_inv in H as (file & w3 & _ & H).
        apply bind_returned_inv in H as (file1 & w4 & _ & H).
        apply bind_returned_inv in H as (u & w5 & _ & H).
        apply mret_returned_inv in H as [-> _].
        rewrite app_assoc. apply verdicts_of_set; [exact Hpre|].
        exists r. split; [exact Htest | reflexivity].
      - apply mret_returned_inv in H as [-> _]. rewrite app_nil_r. exact Hpre. }
    exact Hinner. }
  exact Hall.
Qed.
End Causality.

Lemma in_causality_pairs (variables : list string) (cause effect : string) :
  In (cause, effect) (causality_pairs variables)
  <-> In cause variables /\ In effect variables /\ cause <> effect.
Proof.
  unfold causality_pairs. rewrite in_flat_map. split.
  - intros (c & Hc & Hin). apply in_flat_map in Hin as (e & He & Hin).
    destruct (String.eqb c e) eqn:E; simpl in Hin; [destruct Hin|].
    destruct Hin as [Heq|[]]. injection Heq as <- <-.
    apply String.eqb_neq in E. auto.
  - intros (Hc & He & Hne). exists cause. split; [exact Hc|].
    apply in_flat_map. exists effect. split; [exact He|].
    apply String.eqb_neq in Hne. rewrite Hne. left. reflexivity.
Qed.

(** X14: when [check_causality] returns, its dictionary has an entry
    [cause->effect] for every ordered pair of different variables and no
    other entry, and the value of an entry is whether the Wald test of such
    a pair concluded [reject]. *)
Theorem check_causality_one_verdict_per_pair
    (env : Env) (variables : list string) (training_result : VARResults)
    (user_login : string) (permutation_index : nat) (causality_threshold : float)
    (test_results : dict.t bool) (w w1 : World) :
  check_causality env variables training_result user_login permutation_index
    causality_threshold w = (Returned test_results, w1) ->
  (forall cause effect,
      In cause variables -> In effect variables -> cause <> effect ->
      dict.contains (cause ++ "->" ++ effect) test_results = true)
  /\ (forall key verdict,
        dict.get key test_results = Some verdict ->
        exists cause effect,
          In cause variables /\ In effect variables /\ cause <> effect
          /\ key = cause ++ "->" ++ effect
          /\ exists r,
               test_causality training_result cause effect "wald" causality_threshold
               = Returned r
               /\ verdict = String.eqb (conclusion r) "reject").
Proof.
  intros H. apply check_causality_verdicts in H as [Hsound Hcomplete]. split.
  - intros cause effect Hc He Hne. apply Hcomplete, in_causality_pairs. auto.
  - intros key verdict Hget.
    destruct (Hsound key verdict Hget) as (c & e & Hin & Hkey & Hverdict).
    apply in_causality_pairs in Hin as (Hc & He & Hne).
    exists c, e. auto.
Qed.

Lemma check_causality_one_verdict_per_pair_witness :
  exists test_results,
    dict.contains ("merges_performed" ++ "->" ++ "merges_successful") test_results = true
    /\ fst (check_causality Demo.env Demo.variables
              (Demo.results_for Demo.differenced 3) "alice" 0 default_threshold
              empty_world)
       = Returned test_results.
Proof.
  pose (run := check_causality Demo.env Demo.variables
                 (Demo.results_for Demo.differenced 3) "alice" 0 default_threshold
                 empty_world).
  pose (test_results := match fst run with Returned d => d | Raised _ => [] end).
  destruct (check_causality_one_verdict_per_pair Demo.env Demo.variables
              (Demo.results_for Demo.differenced 3) "alice" 0 default_threshold
              test_results empty_world (snd run)) as [Hcomplete _].
  - apply (returned_run _ []). vm_compute. reflexivity.
  - exists test_results. split.
    + apply Hcomplete.
      * left. reflexivity.
      * right. right. left. reflexivity.
      * intros Heq. discriminate Heq.
    + vm_compute. reflexivity.
Defined.

(** ** The diagnostics [train_var_model] collects *)

Lemma verdicts_for_none (k : string) (d : dict.t bool) :
  dict.get k d = None -> verdicts_for k d = [].
Proof.
  induction d as [|[k1 v] d IH]; [reflexivity|].
  rewrite verdicts_for_cons. simpl. destruct (String.eqb k1 k); [discriminate | exact IH].
Qed.

Lemma do_structural_analysis_cases (env : Env) (variables : list string)
    (training_result : VARResults) (periods : Z)
    (user_login project calendar_interval : string) (permutation_index : nat)
    (causality_results : dict.t bool) (w w1 : World) :
  do_structural_analysis env variables training_result periods user_login project
    calendar_interval permutation_index w = (Returned causality_results, w1) ->
  causality_results = []
  \/ exists w0,
       check_causality env variables training_result user_login permutation_index
         default_threshold w = (Returned causality_results, w0).
Proof.
  unfold do_structural_analysis.
  destruct (check_causality _ _ _ _ _ _ w) as [[checked|e] w0].
  - match goal with
    | |- context [match ?m w0 with _ => _ end] => destruct (m w0) as [[u|e] w2]
    end.
    + intros H. injection H as <- _. right. exists w0. reflexivity.
    + rewrite isinstance_Exception. intros H. injection H as <- _.
      right. exists w0. reflexivity.
  - rewrite isinstance_Exception. intros H. injection H as <- _. left. reflexivity.
Qed.

Lemma do_structural_analysis_arrow_keys (env : Env) (variables : list string)
    (training_result : VARResults) (periods : Z)
    (user_login project calendar_interval : string) (permutation_index : nat)
    (causality_results : dict.t bool) (w w1 : World) (k : string) :
  do_structural_analysis env variables training_result periods user_login project
    calendar_interval permutation_index w = (Returned causality_results, w1) ->
  has_arrow k = false -> verdicts_for k causality_results = [].
Proof.
  intros H Hk. apply verdicts_for_none.
  apply do_structural_analysis_cases in H as [->|[w0 H]]; [reflexivity|].
  apply check_causality_verdicts in H as [Hsound _].
  destruct (dict.get k causality_results) as [v|] eqn:E; [|reflexivity].
  destruct (Hsound k v E) as (c & e & _ & -> & _).
  rewrite has_arrow_app in Hk. discriminate Hk.
Qed.

Lemma record_diagnostics_fixed (user_login : string) (training_result : VARResults)
    (whiteness_result : WhitenessTestResults) (normality_result : NormalityTestResults)
    (d d1 : dict.t Value) (w w1 : World) :
  record_diagnostics user_login training_result whiteness_result normality_result d w
  = (Returned d1, w1) ->
  dict.get var_order_key d1
  = Some (VSet (set_of (dict.get var_order_key d) ∪ {[ VInt (k_ar training_result) ]}))
  /\ dict.get serial_correlation_key d1
     = Some (VSet (set_of (dict.get serial_correlation_key d)
                   ∪ {[ VBool (String.eqb (conclusion whiteness_result) "reject") ]}))
  /\ dict.get residual_white_noise_key d1
     = Some (VSet (set_of (dict.get residual_white_noise_key d)
                   ∪ {[ VBool (negb (String.eqb (conclusion normality_result)
                                               "reject")) ]}))
  /\ dict.get train_sample_size_key d1 = dict.get train_sample_size_key d.
Proof.
  unfold record_diagnostics. intros H.
  apply bind_returned_inv in H as (d2 & w2 & H2 & H).
  apply lift_returned_inv in H2 as [H2 ->].
  apply set_add_returned in H2 as (s2 & Hs2 & ->).
  apply bind_returned_inv in H as (d3 & w3 & H3 & H).
  assert (Hd3 : exists s3,
             dict.get serial_correlation_key (dict.set var_order_key
                                                (VSet (s2 ∪ {[VInt (k_ar training_result)]})) d)
             = Some (VSet s3)
             /\ d3 = dict.set serial_correlation_key
                       (VSet (s3 ∪ {[ VBool (String.eqb (conclusion whiteness_result)
                                                        "reject") ]}))
                       (dict.set var_order_key
                          (VSet (s2 ∪ {[VInt (k_ar training_result)]})) d)).
  { destruct (String.eqb (conclusion whiteness_result) "reject").
    - apply bind_returned_inv in H3 as (u & w4 & _ & H3).
      apply lift_returned_inv in H3 as [H3 _]. apply set_add_returned in H3. exact H3.
    - apply lift_returned_inv in H3 as [H3 _]. apply set_add_returned in H3. exact H3. }
  destruct Hd3 as (s3 & Hs3 & ->).
  assert (Hd1 : exists s1,
             dict.get residual_white_noise_key
               (dict.set serial_correlation_key
                  (VSet (s3 ∪ {[ VBool (String.eqb (conclusion whiteness_result)
                                                   "reject") ]}))
                  (dict.set var_order_key
                     (VSet (s2 ∪ {[VInt (k_ar training_result)]})) d))
             = Some (VSet s1)
             /\ d1 = dict.set residual_white_noise_key
                       (VSet (s1 ∪ {[ VBool (negb (String.eqb
                                                     (conclusion normality_result)
                                                     "reject")) ]}))
                       (dict.set serial_correlation_key
                          (VSet (s3 ∪ {[ VBool (String.eqb
                                                  (conclusion whiteness_result)
                                                  "reject") ]}))
                          (dict.set var_order_key
                             (VSet (s2 ∪ {[VInt (k_ar training_result)]})) d))).
  { destruct (String.eqb (conclusion normality_result) "reject").
    - apply bind_returned_inv in H as (u & w4 & _ & H).
      apply lift_returned_inv in H as [H _]. apply set_add_returned in H. exact H.
    - apply lift_returned_inv in H as [H _]. apply set_add_returned in H. exact H. }
  destruct Hd1 as (s1 & Hs1 & ->).
  rewrite !dict_get_set_ne in Hs1 by discriminate.
  rewrite dict_get_set_ne in Hs3 by discriminate.
  rewrite Hs1, Hs2, Hs3. cbn [set_of].
  repeat split.
  - rewrite !dict_get_set_ne by discriminate. apply dict_get_set_eq.
  - rewrite dict_get_set_ne by discriminate. apply dict_get_set_eq.
  - apply dict_get_set_eq.
  - rewrite !dict_get_set_ne by discriminate. reflexivity.
Qed.


Section Diagnostics.
Variables (env : Env) (user_login : string) (variables : list string)
          (project calendar_interval information_criterion : string)
          (periods : Z) (train_sample_size : nat).

Lemma permutation_step_diagnostics (n : nat) (source : DataFrame)
    (item : nat * list string) (st st1 : LoopState) (w w1 : World) :
  permutation_step env user_login variables project calendar_interval
    information_criterion periods train_sample_size source item st w
  = (Returned st1, w1) ->
  diagnostics_collected n st -> diagnostics_collected n st1.
Proof.
  unfold permutation_step. intros H (Horder & Hserial & Hnoise & Hsize).
  apply bind_returned_inv in H as (u0 & w0 & _ & H).
  apply bind_returned_inv in H as (selected & w2 & _ & H).
  apply bind_returned_inv in H as (var_model & w3 & _ & H).
  apply bind_returned_inv in H as (fitted & w4 & _ & H).
  apply bind_returned_inv in H as (u & w5 & _ & H).
  apply bind_returned_inv in H as (ra & w6 & Hdiag & H).
  apply record_diagnostics_fixed in Hdiag as (Horder1 & Hserial1 & Hnoise1 & Hsize1).
  apply bind_returned_inv in H as (causality_results & w7 & Hstruct & H).
  pose proof (fun k => do_structural_analysis_arrow_keys _ _ _ _ _ _ _ _ _ _ _ k Hstruct)
    as Harrow.
  apply bind_returned_inv in H as (ra1 & w8 & Hacc & H).
  apply accumulate_all_returned in Hacc as [_ Hacc].
  apply mret_returned_inv in H as [-> _].
  unfold diagnostics_collected, orders_used, serial_correlations, white_noises.
  cbn [result_analysis permutation_results].
  rewrite !map_app, !list_to_set_app_L. cbn [map list_to_set].
  cbn [pr_var_order pr_serial_correlation pr_residual_white_noise].
  rewrite !Hacc, !Harrow by reflexivity.
  rewrite Horder1, Hserial1, Hnoise1, Hsize1, Horder, Hserial, Hnoise, Hsize.
  cbn [set_of]. rewrite !(right_id_L ∅ (∪)). repeat split; reflexivity.
Qed.

Lemma permutation_loop_diagnostics (n : nat) (items : list (nat * list string)) :
  forall (st st1 : LoopState) (w w1 : World),
    for_each (permutation_body env user_login variables project calendar_interval
                information_criterion periods train_sample_size) items st w
    = (Returned st1, w1) ->
    diagnostics_collected n st -> diagnostics_collected n st1.
Proof.
  induction items as [|item items IH]; intros st st1 w w1 H Hst.
  - apply mret_returned_inv in H as [-> _]. exact Hst.
  - cbn [for_each] in H. apply bind_returned_inv in H as (st0 & w0 & Hstep & Hrest).
    unfold permutation_body in Hstep.
    eapply IH; [exact Hrest|]. eapply permutation_step_diagnostics; eassumption.
Qed.
End Diagnostics.

(** X15: when [train_var_model] returns, the four entries its result has
    from the start hold what the permutations gave: [var_order] the set of
    the lag orders of the fits, [serial_correlation] the set of the
    verdicts of the whiteness tests, [residual_white_noise] the set of the
    verdicts of the normality tests, and [train_sample_size] the one-element
    list of the number of rows left after the last six are set apart. *)
Theorem train_var_model_collects_diagnostics
    (env : Env) (consolidated_dataframe : DataFrame) (user_login : string)
    (variables : list string) (project calendar_interval information_criterion : string)
    (periods : Z) (result : dict.t Value) (w w1 : World) :
  train_var_model env consolidated_dataframe user_login variables project
    calendar_interval information_criterion periods w = (Returned result, w1) ->
  exists st,
    train_var_model_loop env consolidated_dataframe user_login variables project
      calendar_interval information_criterion periods w = (Returned st, w1)
    /\ result = result_analysis st
    /\ dict.get var_order_key result
       = Some (VSet (orders_used (permutation_results st)))
    /\ dict.get serial_correlation_key result
       = Some (VSet (serial_correlations (permutation_results st)))
    /\ dict.get residual_white_noise_key result
       = Some (VSet (white_noises (permutation_results st)))
    /\ dict.get train_sample_size_key result
       = Some (VList [Z.of_nat (pd.len consolidated_dataframe - 6)]).
Proof.
  intros H. apply train_var_model_returned in H as (st & Hloop & ->).
  exists st. split; [exact Hloop|]. split; [reflexivity|].
  unfold train_var_model_loop in Hloop.
  apply bind_returned_inv in Hloop as (u & w0 & _ & Hloop).
  apply (permutation_loop_diagnostics _ _ _ _ _ _ _ _
           (pd.len consolidated_dataframe - 6)) in Hloop; [exact Hloop|].
  unfold diagnostics_collected. cbn [result_analysis permutation_results].
  repeat split. unfold initial_analysis, pd.drop_last, pd.len. cbn [dict.get index].
  simpl. rewrite length_firstn. do 4 f_equal. lia.
Qed.

Lemma train_var_model_collects_diagnostics_witness :
  exists st,
    dict.get train_sample_size_key (result_analysis st)
    = Some (VList [Z.of_nat (pd.len Demo.differenced - 6)])
    /\ dict.get var_order_key (result_analysis st)
       = Some (VSet (orders_used (permutation_results st))).
Proof.
  pose (run := train_var_model Demo.env Demo.differenced "alice" Demo.variables
                 "demo" "month" "bic" 24 empty_world).
  destruct (train_var_model_collects_diagnostics Demo.env Demo.differenced
              "alice" Demo.variables "demo" "month" "bic" 24
              (match fst run with Returned r => r | Raised _ => [] end) empty_world
              (snd run))
    as (st & _ & -> & Horder & _ & _ & Hsize).
  - apply (returned_run _ []). vm_compute. reflexivity.
  - exists st. split; [exact Hsize | exact Horder].
Defined.

(** ** The report of a permutation, written over an earlier one *)

(** X16: the report of a permutation is written after what its file
    already holds: opened for appending, the file is cut at its end, that
    is not at all, and the four summaries follow the old content.  No other
    file changes. *)
Theorem report_follows_old_content
    (env : Env) (user_report_file : string) (var_order_result : LagOrderResults)
    (training_result : VARResults) (whiteness_result : WhitenessTestResults)
    (normality_result : NormalityTestResults) (w : World) :
  open_error env user_report_file = None ->
  exists w1,
    write_report env user_report_file var_order_result training_result
                 whiteness_result normality_result w = (Returned tt, w1)
    /\ content w1 user_report_file
       = content w user_report_file
         ++ report_text var_order_result training_result whiteness_result
                        normality_result
    /\ forall path, path <> user_report_file -> files w1 !! path = files w !! path.
Proof.
  intros Hopen.
  destruct (write_report_run env user_report_file var_order_result training_result
              whiteness_result normality_result w Hopen)
    as (w1 & Hrun & Hfile & Hothers & _).
  exists w1. split; [exact Hrun|]. split; [|exact Hothers].
  unfold content at 1. rewrite Hfile. reflexivity.
Qed.

Lemma report_follows_old_content_witness :
  exists w1,
    write_report Demo.env (report_path "alice" 0) Demo.orders
      (Demo.results_for Demo.differenced 3) (Demo.test "fail to reject")
      (Demo.test "reject") Demo.after_earlier_run = (Returned tt, w1)
    /\ content w1 (report_path "alice" 0)
       = Demo.stale
         ++ report_text Demo.orders (Demo.results_for Demo.differenced 3)
              (Demo.test "fail to reject") (Demo.test "reject").
Proof.
  destruct (report_follows_old_content Demo.env (report_path "alice" 0) Demo.orders
              (Demo.results_for Demo.differenced 3) (Demo.test "fail to reject")
              (Demo.test "reject") Demo.after_earlier_run)
    as (w1 & Hrun & Hcontent & _).
  - reflexivity.
  - exists w1. split; [exact Hrun|]. rewrite Hcontent. f_equal.
Defined.

(** ** Users whose requests nobody merged *)

(** X17: with the three series asked for and rows in the merges-performed
    series, a user whose merges-successful series comes back without rows
    is not analysable either: [consolidate_dataframe] logs one error and
    returns the empty frame, and [analyse_user] returns [None]. *)
Theorem analyse_user_without_requests_merged
    (env : Env) (es : Elasticsearch) (pull_request_index user_login : string)
    (variables : list string) (calendar_interval information_criterion project : string)
    (merges_performed_dataframe merge_requests_dataframe requests_merged_dataframe
       : DataFrame) (w : World) :
  MERGES_PERFORMED_COLUMN env ∈ variables ->
  MERGES_REQUESTED_COLUMN env ∈ variables ->
  MERGES_SUCCESSFUL_COLUMN env ∈ variables ->
  get_merges_performed env es pull_request_index user_login calendar_interval
  = Returned merges_performed_dataframe ->
  get_merge_requests env es pull_request_index user_login calendar_interval
  = Returned merge_requests_dataframe ->
  get_requests_merged env es pull_request_index user_login calendar_interval
  = Returned requests_merged_dataframe ->
  pd.len merges_performed_dataframe <> 0%nat ->
  pd.len requests_merged_dataframe = 0%nat ->
  let w0 := add_log (LogError ("User " ++ user_login
                                 ++ " does not have PRs merged by other developers"))
                    w in
  consolidate_dataframe env es pull_request_index user_login variables
    calendar_interval w = (Returned pd.DataFrame_new, w0)
  /\ analyse_user env es pull_request_index user_login variables calendar_interval
       information_criterion project w
     = (Returned None, add_print (PNoDataPoints user_login pull_request_index) w0).
Proof.
  intros Hp Hr Hs Hperformed Hrequests Hmerged Hlenp Hlens w0.
  assert (Hrun : consolidate_dataframe env es pull_request_index user_login variables
                   calendar_interval w = (Returned pd.DataFrame_new, w0)).
  { unfold consolidate_dataframe, consolidate_requested, consolidate_successful.
    rewrite !bool_decide_eq_true_2 by assumption.
    rewrite bind_unfold, Hperformed, lift_run.
    rewrite bool_decide_eq_false_2 by exact Hlenp.
    rewrite bind_unfold, Hrequests, lift_run.
    rewrite bind_unfold, Hmerged, lift_run.
    rewrite bool_decide_eq_true_2 by exact Hlens. reflexivity. }
  split; [exact Hrun|].
  exact (analyse_user_no_data env es pull_request_index user_login variables
           calendar_interval information_criterion project pd.DataFrame_new w w0 Hrun
           eq_refl).
Qed.

Lemma analyse_user_without_requests_merged_witness :
  let env := Demo.env_with Demo.performed Demo.requested
               (mkFrame [] [("merges_successful", [])]) (Returned tt) in
  fst (analyse_user env Demo.es "demo" "alice" Demo.variables "month" "bic" "demo"
         empty_world) = Returned None.
Proof.
  intros env.
  destruct (analyse_user_without_requests_merged env Demo.es "demo" "alice"
              Demo.variables "month" "bic" "demo" Demo.performed Demo.requested
              (mkFrame [] [("merges_successful", [])]) empty_world) as [_ Hrun].
  - apply (bool_decide_unpack _). vm_compute. reflexivity.
  - apply (bool_decide_unpack _). vm_compute. reflexivity.
  - apply (bool_decide_unpack _). vm_compute. reflexivity.
  - reflexivity.
  - reflexivity.
  - reflexivity.
  - apply (bool_decide_unpack _). vm_compute. reflexivity.
  - reflexivity.
  - rewrite Hrun. reflexivity.
Defined.

(** ** The seasonal decomposition wants the merges-performed column *)

(** X18: the diagnostic plots always decompose the merges-performed
    column, whatever the variables are.  On a consolidated frame without
    that column they never complete: they raise, and when the two frame
    plots go through, what they raise is the [KeyError] of the missing
    column, which [analyse_user] does not catch. *)
Theorem diagnostic_plots_need_merges_performed
    (env : Env) (consolidated_dataframe after_differencing_data : DataFrame)
    (user_login project : string) (w : World) :
  pd.matching (MERGES_PERFORMED_COLUMN env) (columns consolidated_dataframe) = [] ->
  exists e w1,
    diagnostic_plots env consolidated_dataframe after_differencing_data user_login
      project w = (Raised e, w1)
    /\ ((forall df title, DataFrame_plot env df title = Returned tt) ->
        (forall path, savefig_error env path = None) ->
        e = KeyError (MERGES_PERFORMED_COLUMN env)
        /\ isinstance e "ValueError" = false).
Proof.
  intros Hmissing.
  unfold diagnostic_plots, plot_dataframe, plot_seasonal_decomposition, pd.getitem.
  rewrite Hmissing. unfold mbind, M_bind, bind, lift, savefig.
  destruct (DataFrame_plot env consolidated_dataframe _) as [[]|e1] eqn:Eplot1.
  - destruct (savefig_error env _) as [e2|] eqn:Esave1.
    + eexists _, _. split; [reflexivity|]. intros _ Hsave.
      rewrite Hsave in Esave1. discriminate Esave1.
    + destruct (DataFrame_plot env after_differencing_data _) as [[]|e3] eqn:Eplot2.
      * match goal with
        | |- context [savefig_error env ?path] =>
            destruct (savefig_error env path) as [e4|] eqn:Esave2
        end.
        -- eexists _, _. split; [reflexivity|]. intros _ Hsave.
           rewrite Hsave in Esave2. discriminate Esave2.
        -- eexists _, _. split; [reflexivity|]. intros _ _. split; reflexivity.
      * eexists _, _. split; [reflexivity|]. intros Hplot.
        rewrite Hplot in Eplot2. discriminate Eplot2.
  - eexists _, _. split; [reflexivity|]. intros Hplot.
    rewrite Hplot in Eplot1. discriminate Eplot1.
Qed.

Lemma diagnostic_plots_need_merges_performed_witness :
  exists e w1,
    diagnostic_plots Demo.env Demo.requested (pd.dropna (pd.diff Demo.requested))
      "alice" "demo" empty_world = (Raised e, w1)
    /\ ((forall df title, DataFrame_plot Demo.env df title = Returned tt) ->
        (forall path, savefig_error Demo.env path = None) ->
        e = KeyError (MERGES_PERFORMED_COLUMN Demo.env)
        /\ isinstance e "ValueError" = false).
Proof.
  apply (diagnostic_plots_need_merges_performed Demo.env Demo.requested
           (pd.dropna (pd.diff Demo.requested)) "alice" "demo" empty_world).
  reflexivity.
Defined.
